(** * Social agent simulation platform: the UI's dummy turn generator and run bookkeeping

    A shallow embedding of [ui/lib/dummy-data.ts] (the turn generator
    [createTurnForRun], the post corpus and its lookup), of
    [ui/app/page.tsx] (run status, run creation) and of
    [ui/components/ConfigForm.tsx] (the configuration form), followed by the
    properties of the specification that speak about them. Line numbers in
    the comments of the generator are those of the listing of
    [dummy-data.ts] with its types.

    Conventions of the embedding.
    - A JavaScript [number] that the code only ever uses as a count or an
      index is an integer of [Z]; where the code can produce [NaN] (a
      remainder by zero) the value is a [Js.number], [None] being [NaN].
    - [undefined] is [None]; an exception is [Throw] in the [result] monad.
    - A [Record<string, T>] is a [gmap string T]; the inner records of
      [DUMMY_TURNS], whose keys are the decimal renderings of turn numbers,
      are [gmap Z Turn.t] keyed by the number itself.
    - [Date.now()] is a parameter [Date_now], one reading for the calls of
      one turn; a timestamp built by [new Date(ms).toISOString()] is kept as
      its epoch milliseconds [ms], the call throwing outside the range of
      [Date]; [now.toISOString()] in the page is a parameter [nowIso].
    - A record is an object literal, so it inherits the members of
      [Object.prototype] (see [objectPrototypeKeys]): [Js.get] reads a key
      the way the code does, and a property that needs the roster to have
      no agent called ["__proto__"] (assigning under that key sets the
      prototype of the record) says so. *)

From stdpp Require Import base option list gmap strings pretty sorting.
From Stdlib Require Import ZArith Lia.

Open Scope Z_scope.

(** ** JavaScript primitives used by the sources *)

Module Js.

Inductive Error := TypeError | RangeError.

Inductive result (A : Type) : Type :=
| Ok (a : A)
| Throw (e : Error).
Arguments Ok {A} a.
Arguments Throw {A} e.

#[global] Instance result_ret : MRet result := fun A a => Ok a.
#[global] Instance result_bind : MBind result := fun A B f r =>
  match r with
  | Ok a => f a
  | Throw e => Throw e
  end.

(** An integer-valued [number]; [None] is [NaN]. *)
Definition number := option Z.

Definition add (a b : number) : number :=
  match a, b with
  | Some x, Some y => Some (x + y)
  | _, _ => None
  end.

(** [a % b]: the remainder has the sign of the dividend, and [x % 0] is [NaN]. *)
Definition rem (a b : number) : number :=
  match a, b with
  | Some x, Some y => if decide (y = 0) then None else Some (Z.rem x y)
  | _, _ => None
  end.

(** [l[i]]: [undefined] unless [i] is an index of [l]. *)
Definition index {A : Type} (l : list A) (i : number) : option A :=
  match i with
  | Some z => if decide (0 ≤ z) then l !! Z.to_nat z else None
  | None => None
  end.

(** [Boolean(s)] for [s : string | undefined]. *)
Definition truthy (s : option string) : bool :=
  match s with
  | Some EmptyString => false
  | Some _ => true
  | None => false
  end.

(** [xs.filter(Boolean) as string[]]. *)
Definition filterBoolean (xs : list (option string)) : list string :=
  omap (fun s => if truthy s then s else None) xs.

(** [xs.forEach((x, idx) => ...)] for a callback that updates a state [St]
    and may throw; [idx] is the index of the first element of [xs]. *)
Fixpoint forEach {A St : Type} (f : St → A → Z → result St) (xs : list A)
    (idx : Z) (s : St) : result St :=
  match xs with
  | [] => Ok s
  | x :: xs' => s' ← f s x idx; forEach f xs' (idx + 1) s'
  end.

(** [xs.find(p)]. *)
Definition find {A : Type} (p : A → bool) (xs : list A) : option A :=
  List.find p xs.

(** The largest time value of a [Date], in milliseconds from the epoch. *)
Definition maxTime : Z := 8640000000000000.

(** [new Date(ms).toISOString()] for an integer [ms]: beyond [maxTime] the
    date is invalid and [toISOString] throws a [RangeError]. The string is
    kept as [ms]. *)
Definition toISOString (ms : Z) : result Z :=
  if decide (- maxTime ≤ ms ≤ maxTime) then Ok ms else Throw RangeError.

(** The names of the members of [Object.prototype], which every object
    literal inherits: reading such a key from a record that has no entry
    for it gives the inherited member, not [undefined], and assigning to
    ["__proto__"] sets the prototype instead of adding an entry. *)
Definition objectPrototypeKeys : list string :=
  [ "__proto__"; "constructor"; "hasOwnProperty"; "isPrototypeOf";
    "propertyIsEnumerable"; "toLocaleString"; "toString"; "valueOf";
    "__defineGetter__"; "__defineSetter__"; "__lookupGetter__";
    "__lookupSetter__" ].

(** What [obj[key]] finds in a record [obj]. *)
Inductive property (T : Type) : Type :=
| Own (v : T)
| Inherited
| Undefined.
Arguments Own {T} v.
Arguments Inherited {T}.
Arguments Undefined {T}.

(** [obj[key]] for a record whose own entries are [own] and whose prototype
    is [Object.prototype]: the entry, else the inherited member (an object
    or a function, never a [T]), else [undefined]. *)
Definition get {T : Type} (own : gmap string T) (key : string) : property T :=
  match own !! key with
  | Some v => Own v
  | None => if bool_decide (key ∈ objectPrototypeKeys) then Inherited else Undefined
  end.

End Js.

Import Js.

(** ** [types/index.ts] *)

Inductive RunStatus := running | completed | failed.

#[global] Instance RunStatus_eq_dec : EqDecision RunStatus.
Proof. solve_decision. Defined.

Module Run.
Record t := mk {
  runId : string;
  createdAt : string;
  totalTurns : Z;
  totalAgents : Z;
  status : RunStatus
}.
End Run.

Module Agent.
Record t := mk {
  handle : string;
  name : string;
  bio : string;
  generatedBio : string;
  followers : Z;
  following : Z;
  postsCount : Z
}.
End Agent.

Module Post.
Record t := mk {
  uri : string;
  authorDisplayName : string;
  authorHandle : string;
  text : string;
  bookmarkCount : Z;
  likeCount : Z;
  quoteCount : Z;
  replyCount : Z;
  repostCount : Z;
  createdAt : string
}.
End Post.

Module Feed.
Record t := mk {
  feedId : string;
  runId : string;
  turnNumber : Z;
  agentHandle : string;
  postUris : list string;
  createdAt : Z
}.
End Feed.

Inductive ActionType := like | comment | follow.

#[global] Instance ActionType_eq_dec : EqDecision ActionType.
Proof. solve_decision. Defined.

Module AgentAction.
Record t := mk {
  actionId : string;
  agentHandle : string;
  postUri : option string;
  userId : option string;
  type : ActionType;
  createdAt : Z
}.
End AgentAction.

Module Turn.
Record t := mk {
  turnNumber : Z;
  agentFeeds : gmap string Feed.t;
  agentActions : gmap string (list AgentAction.t)
}.
End Turn.

Module RunConfig.
Record t := mk {
  numAgents : Z;
  numTurns : Z
}.
End RunConfig.

(** ** [lib/dummy-data.ts] *)

Definition dq : string := String (Ascii.ascii_of_nat 34) EmptyString.

Definition DUMMY_RUNS : list Run.t :=
  [ Run.mk "run_2025-01-15T10:30:00" "2025-01-15T10:30:00" 10 3 completed;
    Run.mk "run_2025-01-15T14:45:00" "2025-01-15T14:45:00" 10 4 running;
    Run.mk "run_2025-01-16T09:15:00" "2025-01-16T09:15:00" 5 3 running;
    Run.mk "run_2025-01-17T08:20:00" "2025-01-17T08:20:00" 15 4 running;
    Run.mk "run_2025-01-18T11:00:00" "2025-01-18T11:00:00" 20 4 running ].

Definition DUMMY_AGENTS : list Agent.t :=
  [ Agent.mk "@alice.bsky.social" "Alice Chen"
      "AI researcher and educator. Building the future of human-AI collaboration."
      "Alice is a passionate AI researcher who focuses on making artificial intelligence more accessible and understandable. She regularly shares insights about machine learning, human-computer interaction, and the ethical implications of AI technology."
      12450 892 3421;
    Agent.mk "@bob.tech" "Bob Martinez"
      "Software engineer | Open source contributor | Coffee enthusiast ☕"
      "Bob is an experienced software engineer with a strong focus on open-source contributions. He loves sharing technical knowledge, code reviews, and occasionally posts about his coffee adventures."
      8765 1203 2105;
    Agent.mk "@charlie.dev" "Charlie Kim"
      "Building products that matter. Former startup founder."
      "Charlie is a product-focused engineer with a background in startup entrepreneurship. He shares lessons learned, product development insights, and thoughts on building sustainable businesses."
      15432 567 4521;
    Agent.mk "@diana.design" "Diana Park"
      "UX Designer | Accessibility advocate | Design systems enthusiast"
      "Diana is a UX designer passionate about creating inclusive and accessible digital experiences. She frequently shares design system patterns, accessibility best practices, and thoughts on how design impacts user behavior."
      9876 1456 1876;
    Agent.mk "@edward.data" "Edward Wu"
      "Data scientist | ML engineer | Stats nerd 📊"
      "Edward is a data scientist who loves diving deep into datasets and building machine learning models. He shares analysis insights, statistical findings, and practical ML techniques with the community."
      11234 789 3210;
    Agent.mk "@fiona.frontend" "Fiona Lee"
      "Frontend engineer | React enthusiast | CSS wizard"
      "Fiona is a frontend engineer specializing in React and modern CSS. She enjoys building performant web applications and sharing tips on component architecture, performance optimization, and creative CSS techniques."
      6543 923 1567;
    Agent.mk "@george.backend" "George Thompson"
      "Backend engineer | Distributed systems | Database optimization"
      "George is a backend engineer with expertise in distributed systems and database design. He shares insights on system architecture, scalability challenges, and database performance tuning strategies."
      14567 612 2890;
    Agent.mk "@hannah.ai" "Hannah Rodriguez"
      "AI product manager | ML adoption | Ethical AI"
      "Hannah is a product manager focused on bringing AI products to market. She writes about ML adoption strategies, ethical considerations in AI development, and bridging the gap between technical teams and business stakeholders."
      8765 1345 2103 ].

Definition DUMMY_POSTS : list Post.t :=
  [ Post.mk "at://did:plc:example1/post1" "Alice Chen" "@alice.bsky.social"
      "Just finished reading an amazing paper on transformer architectures. The attention mechanism continues to surprise me with its elegance!"
      23 145 8 12 34 "2025-01-15T10:00:00";
    Post.mk "at://did:plc:example2/post2" "Bob Martinez" "@bob.tech"
      "Found a beautiful bug today that only shows up on Tuesdays during leap years. Classic. 🐛"
      5 67 2 8 12 "2025-01-15T11:30:00";
    Post.mk "at://did:plc:example3/post3" "Charlie Kim" "@charlie.dev"
      "The best product decisions are often the ones that seem obvious in retrospect but were controversial at the time."
      89 234 15 45 78 "2025-01-15T13:00:00";
    Post.mk "at://did:plc:example4/post4" "Diana Park" "@diana.design"
      "Accessibility isn't optional. Every design decision impacts real people with real needs. Let's build for everyone. ♿"
      156 423 28 67 112 "2025-01-15T14:15:00";
    Post.mk "at://did:plc:example5/post5" "Edward Wu" "@edward.data"
      "Just visualized a dataset with 10M rows and the patterns that emerged were fascinating. Sometimes you need to zoom out to see the forest for the trees."
      34 198 12 23 45 "2025-01-15T15:30:00";
    Post.mk "at://did:plc:example6/post6" "Fiona Lee" "@fiona.frontend"
      "CSS Grid + Flexbox = unstoppable. Just built a responsive layout that would have taken me hours before. Modern CSS is magical."
      78 312 19 34 89 "2025-01-15T16:00:00";
    Post.mk "at://did:plc:example7/post7" "George Thompson" "@george.backend"
      "Database indexing is like a library catalog system. Without it, you're searching through every book. With it, you go straight to the shelf."
      112 445 31 56 123 "2025-01-15T17:20:00";
    Post.mk "at://did:plc:example8/post8" "Hannah Rodriguez" "@hannah.ai"
      "The hardest part of building AI products isn't the technology—it's understanding user needs and ensuring the AI actually solves real problems."
      67 289 22 41 98 "2025-01-15T18:45:00";
    Post.mk "at://did:plc:example9/post9" "Alice Chen" "@alice.bsky.social"
      ("Reading through code reviews and learning so much. The best teams learn from each other. Always ask "
         +:+ dq +:+ "why?" +:+ dq +:+ " not just " +:+ dq +:+ "what?" +:+ dq)
      45 178 9 19 42 "2025-01-16T09:00:00";
    Post.mk "at://did:plc:example10/post10" "Bob Martinez" "@bob.tech"
      "Refactored a legacy component today. It's like archaeology—carefully removing layers to discover the original intent. Satisfying when it all clicks."
      28 134 6 15 29 "2025-01-16T10:30:00" ].

(** [arr.slice(0, n)] for the calls of the source, where [n] is a literal. *)
Definition slice0 {A : Type} (n : nat) (xs : list A) : list A := take n xs.

Section createTurnForRun.

(** The reading of [Date.now()] while the turn is built. *)
Variable Date_now : Z.

Variables (runId : string) (turnNumber : Z) (agents : list Agent.t)
  (allPosts : list Post.t).

(** Lines 272-278: the rotation of the roster. An index outside the roster
    pushes [undefined]. *)
Definition selectAgents : list (option Agent.t) :=
  let len := Z.of_nat (length agents) in
  let startOffset := Js.rem (Some turnNumber) (Some len) in
  let numAgents := Z.min len 5 in
  (fun i => Js.index agents (Js.rem (Js.add startOffset (Some i)) (Some len)))
    <$> seqZ 0 numAgents.

(** Lines 284-289: the post URIs of the feed of the agent at position [idx]
    of a selection of [nsel] agents. *)
Definition feedPostUris (nsel idx : Z) : list string :=
  let plen := Some (Z.of_nat (length allPosts)) in
  let postStartIdx := Js.rem (Some (turnNumber * nsel + idx)) plen in
  let at_ (k : Z) : option string :=
    Post.uri <$> Js.index allPosts (Js.rem (Js.add postStartIdx (Some k)) plen) in
  Js.filterBoolean
    [ Post.uri <$> Js.index allPosts (Js.rem postStartIdx plen); at_ 1; at_ 2 ].

(** Lines 291-298; [toISOString] throws when the timestamp is out of
    range. *)
Definition makeFeed (handle : string) (postUris : list string) : result Feed.t :=
  createdAt ← Js.toISOString (Date_now + turnNumber * 60000);
  Ok (Feed.mk
        ("feed_" +:+ runId +:+ "_turn" +:+ pretty turnNumber +:+ "_" +:+ handle)
        runId turnNumber handle postUris createdAt).

(** Lines 302-310. *)
Definition likeActions (handle : string) (idx : Z) (postUris : list string)
    : result (list AgentAction.t) :=
  if decide (Z.rem turnNumber 2 = 0 ∧ Z.rem idx 2 = 0
             ∧ 0 < Z.of_nat (length postUris))
  then createdAt ← Js.toISOString (Date_now + turnNumber * 60000 + 5000);
       Ok [ AgentAction.mk
              ("action_" +:+ runId +:+ "_turn" +:+ pretty turnNumber +:+ "_"
                 +:+ handle +:+ "_1")
              handle (postUris !! 0%nat) None like createdAt ]
  else Ok [].

(** Lines 311-319; [selectedAgents[1].handle] throws when the second
    selected agent is [undefined], and is read before the timestamp is
    built. *)
Definition followActions (selectedAgents : list (option Agent.t))
    (handle : string) (idx : Z) : result (list AgentAction.t) :=
  if decide (Z.rem turnNumber 3 = 0 ∧ idx = 0
             ∧ 1 < Z.of_nat (length selectedAgents))
  then match selectedAgents !! 1%nat with
       | Some (Some target) =>
           createdAt ← Js.toISOString (Date_now + turnNumber * 60000 + 7000);
           Ok [ AgentAction.mk
                  ("action_" +:+ runId +:+ "_turn" +:+ pretty turnNumber
                     +:+ "_" +:+ handle +:+ "_2")
                  handle None (Some (Agent.handle target)) follow createdAt ]
       | _ => Throw TypeError
       end
  else Ok [].

(** Lines 282-321: the body of the [forEach] callback, on the two records
    being filled. [agent.handle] throws when [agent] is [undefined], before
    the feed is built. An entry written under ["__proto__"] is kept as an
    entry: the code can read it back under that key, but does not count or
    list it among the keys of the record. *)
Definition agentStep (selectedAgents : list (option Agent.t))
    (st : gmap string Feed.t * gmap string (list AgentAction.t))
    (agent : option Agent.t) (idx : Z)
    : result (gmap string Feed.t * gmap string (list AgentAction.t)) :=
  let postUris := feedPostUris (Z.of_nat (length selectedAgents)) idx in
  match agent with
  | None => Throw TypeError
  | Some a =>
      let h := Agent.handle a in
      feed ← makeFeed h postUris;
      let agentFeeds := <[h := feed]> st.1 in
      likes ← likeActions h idx postUris;
      follows ← followActions selectedAgents h idx;
      let actions := likes ++ follows in
      Ok (agentFeeds, <[h := actions]> st.2)
  end.

Definition createTurnForRun : result Turn.t :=
  let selectedAgents := selectAgents in
  st ← Js.forEach (agentStep selectedAgents) selectedAgents 0 (∅, ∅);
  Ok (Turn.mk turnNumber st.1 st.2).

End createTurnForRun.

(** Lines 330-377. Each inner record lists the turns [turnNumbers] of one
    run; building it throws when one of the calls does. *)
Fixpoint turnRecord (Date_now : Z) (runId : string) (agents : list Agent.t)
    (turnNumbers : list Z) : result (gmap Z Turn.t) :=
  match turnNumbers with
  | [] => Ok ∅
  | n :: rest =>
      t ← createTurnForRun Date_now runId n agents DUMMY_POSTS;
      m ← turnRecord Date_now runId agents rest;
      Ok (<[n := t]> m)
  end.

Definition DUMMY_TURNS (Date_now : Z) : result (gmap string (gmap Z Turn.t)) :=
  r1 ← turnRecord Date_now "run_2025-01-15T10:30:00" (slice0 3 DUMMY_AGENTS)
         (seqZ 0 10);
  r2 ← turnRecord Date_now "run_2025-01-15T14:45:00" (slice0 4 DUMMY_AGENTS)
         (seqZ 0 3);
  r3 ← turnRecord Date_now "run_2025-01-16T09:15:00" (slice0 3 DUMMY_AGENTS)
         (seqZ 0 5);
  r4 ← turnRecord Date_now "run_2025-01-17T08:20:00" (slice0 4 DUMMY_AGENTS)
         (seqZ 0 8);
  r5 ← turnRecord Date_now "run_2025-01-18T11:00:00" (slice0 4 DUMMY_AGENTS)
         (seqZ 0 5);
  Ok (<["run_2025-01-15T10:30:00" := r1]>
     (<["run_2025-01-15T14:45:00" := r2]>
     (<["run_2025-01-16T09:15:00" := r3]>
     (<["run_2025-01-17T08:20:00" := r4]>
     (<["run_2025-01-18T11:00:00" := r5]> ∅))))).

Definition DEFAULT_CONFIG : RunConfig.t := RunConfig.mk 5 10.

Definition getPostByUri (uri : string) : option Post.t :=
  Js.find (fun p => bool_decide (Post.uri p = uri)) DUMMY_POSTS.

Definition getAgentByHandle (handle : string) : option Agent.t :=
  Js.find (fun a => bool_decide (Agent.handle a = handle)) DUMMY_AGENTS.

(** ** [components/ConfigForm.tsx] *)

Module ConfigForm.

(** The two [useState] cells of the form. *)
Record State := mk {
  numAgents : Z;
  numTurns : Z
}.

Definition init (defaultConfig : RunConfig.t) : State :=
  mk (RunConfig.numAgents defaultConfig) (RunConfig.numTurns defaultConfig).

(** [isNaN(value) || value < 1 ? 1 : value], for [value] the [Number(...)]
    of the text of the input. *)
Definition clamp (value : Js.number) : Z :=
  match value with
  | None => 1
  | Some v => if decide (v < 1) then 1 else v
  end.

(** Lines 40-43. *)
Definition onChangeNumAgents (value : Js.number) (st : State) : State :=
  mk (clamp value) (numTurns st).

(** Lines 60-63. *)
Definition onChangeNumTurns (value : Js.number) (st : State) : State :=
  mk (numAgents st) (clamp value).

(** Lines 15-18: the configuration handed to [onSubmit]. *)
Definition handleSubmit (st : State) : RunConfig.t :=
  RunConfig.mk (numAgents st) (numTurns st).

End ConfigForm.

(** ** [app/page.tsx] *)

Module Page.

Inductive TurnSelection := turn (n : Z) | summary.

(** The [useState] cells of [Home]. *)
Record State := mk {
  runs : list Run.t;
  selectedRunId : option string;
  selectedTurn : option TurnSelection;
  runConfigs : gmap string RunConfig.t;
  newRunTurns : gmap string (gmap Z Turn.t)
}.

Section Home.

(** The module constant [DUMMY_TURNS], once built. *)
Variable DUMMY_TURNS : gmap string (gmap Z Turn.t).

(** Lines 17-24: the initial value of [runs]. *)
Definition initialRuns : list Run.t :=
  (fun run =>
     let turns := default ∅ (DUMMY_TURNS !! Run.runId run) in
     let completed_ := Z.of_nat (length (map_to_list turns).*1) in
     Run.mk (Run.runId run) (Run.createdAt run) (Run.totalTurns run)
       (Run.totalAgents run)
       (if decide (Run.totalTurns run ≤ completed_) then completed else running))
    <$> DUMMY_RUNS.

Definition initial : State := mk initialRuns None None ∅ ∅.

(** Lines 38-44. [!runId] holds of [null] and of the empty string. *)
Definition getAvailableTurns (st : State) (runId : option string) : list Z :=
  match runId with
  | None => []
  | Some EmptyString => []
  | Some id =>
      let turns :=
        match newRunTurns st !! id with
        | Some ts => ts
        | None => default ∅ (DUMMY_TURNS !! id)
        end in
      merge_sort Z.le (map_to_list turns).*1
  end.

(** Lines 47-49. *)
Definition getCompletedTurnsCount (st : State) (runId : option string) : Z :=
  Z.of_nat (length (getAvailableTurns st runId)).

(** Lines 82-86. *)
Definition getRunStatus (st : State) (run : option Run.t) : RunStatus :=
  match run with
  | None => running
  | Some r =>
      let completed_ := getCompletedTurnsCount st (Some (Run.runId r)) in
      if decide (Run.totalTurns r ≤ completed_) then completed else running
  end.

(** Lines 89-92. *)
Definition runsWithStatus (st : State) : list Run.t :=
  (fun run =>
     Run.mk (Run.runId run) (Run.createdAt run) (Run.totalTurns run)
       (Run.totalAgents run) (getRunStatus st (Some run)))
    <$> runs st.

End Home.

(** Lines 94-112; [nowIso] is [now.toISOString()]. *)
Definition handleConfigSubmit (nowIso : string) (config : RunConfig.t)
    (st : State) : State :=
  let newRunId := "run_" +:+ nowIso in
  let newRun :=
    Run.mk newRunId nowIso (RunConfig.numTurns config)
      (RunConfig.numAgents config) running in
  mk (newRun :: runs st) (Some newRunId) (Some summary)
    (<[newRunId := config]> (runConfigs st)) (newRunTurns st).

(** Lines 114-117. *)
Definition handleSelectRun (runId : string) (st : State) : State :=
  mk (runs st) (Some runId) (Some summary) (runConfigs st) (newRunTurns st).

(** Lines 119-121. *)
Definition handleSelectTurn (t : TurnSelection) (st : State) : State :=
  mk (runs st) (selectedRunId st) (Some t) (runConfigs st) (newRunTurns st).

(** Lines 123-126. *)
Definition handleStartNewRun (st : State) : State :=
  mk (runs st) None None (runConfigs st) (newRunTurns st).

(** Line 129. *)
Definition isStartScreen (st : State) : bool :=
  bool_decide (selectedRunId st = None).

End Page.

(** ** The page with its form: user events *)

Module App.

(** The state of [Home] and, while the start screen is shown, the state of
    the mounted [ConfigForm]. *)
Record State := mk {
  page : Page.State;
  form : option ConfigForm.State
}.

Inductive Event :=
| ChangeNumAgents (value : Js.number)
| ChangeNumTurns (value : Js.number)
| Submit (nowIso : string)
| SelectRun (runId : string)
| SelectTurn (t : Page.TurnSelection)
| StartNewRun.

(** Lines 141-143 of [page.tsx]: the form is rendered on the start screen
    only; it keeps its state while it stays mounted and starts from
    [DEFAULT_CONFIG] when it is mounted. *)
Definition render (p : Page.State) (f : option ConfigForm.State) : State :=
  mk p (if Page.isStartScreen p
        then Some (default (ConfigForm.init DEFAULT_CONFIG) f)
        else None).

Definition initial (DUMMY_TURNS : gmap string (gmap Z Turn.t)) : State :=
  render (Page.initial DUMMY_TURNS) None.

(** An event reaches the handler of the component that is on screen. *)
Definition step (st : State) (e : Event) : State :=
  match e, form st with
  | ChangeNumAgents v, Some f =>
      render (page st) (Some (ConfigForm.onChangeNumAgents v f))
  | ChangeNumTurns v, Some f =>
      render (page st) (Some (ConfigForm.onChangeNumTurns v f))
  | Submit nowIso, Some f =>
      render (Page.handleConfigSubmit nowIso (ConfigForm.handleSubmit f) (page st))
        (Some f)
  | SelectRun runId, _ => render (Page.handleSelectRun runId (page st)) (form st)
  | SelectTurn t, None => render (Page.handleSelectTurn t (page st)) None
  | StartNewRun, _ => render (Page.handleStartNewRun (page st)) (form st)
  | _, _ => st
  end.

Definition run (st : State) (es : list Event) : State := foldl step st es.

End App.

(** ** Vocabulary of the specification *)

(** The turns [0 .. n-1] of one run, built one call after the other. *)
Fixpoint runTurnsFrom (Date_now : Z) (runId : string) (agents : list Agent.t)
    (allPosts : list Post.t) (turnNumbers : list Z) : result (list Turn.t) :=
  match turnNumbers with
  | [] => Ok []
  | n :: rest =>
      t ← createTurnForRun Date_now runId n agents allPosts;
      ts ← runTurnsFrom Date_now runId agents allPosts rest;
      Ok (t :: ts)
  end.

Definition runTurns (Date_now : Z) (runId : string) (agents : list Agent.t)
    (allPosts : list Post.t) (n : Z) : result (list Turn.t) :=
  runTurnsFrom Date_now runId agents allPosts (seqZ 0 n).

(** The post URIs shown to [handle] in one turn, and over the turns of a run. *)
Definition feedUris (handle : string) (t : Turn.t) : list string :=
  from_option Feed.postUris [] (Turn.agentFeeds t !! handle).

Definition shownTo (handle : string) (turns : list Turn.t) : list string :=
  turns ≫= feedUris handle.

Definition isFollow (a : AgentAction.t) : bool :=
  bool_decide (AgentAction.type a = follow).

(** The follow actions recorded in one turn, and over the turns of a run. *)
Definition turnFollows (t : Turn.t) : list AgentAction.t :=
  map_to_list (Turn.agentActions t) ≫= (fun kv => filter isFollow kv.2).

Definition runFollows (turns : list Turn.t) : list AgentAction.t :=
  turns ≫= turnFollows.

(** The follows of [target] by [actor] among [acts]. *)
Definition followsOf (actor target : string) (acts : list AgentAction.t)
    : list AgentAction.t :=
  filter (fun a => AgentAction.agentHandle a = actor
                   ∧ AgentAction.userId a = Some target) acts.

(** The posts of [allPosts] a feed refers to, in feed order. *)
Definition feedPosts (allPosts : list Post.t) (uris : list string) : list Post.t :=
  omap (fun u => Js.find (fun p => bool_decide (Post.uri p = u)) allPosts) uris.

(** Newest first: no post is older than its successor. Timestamps of the
    corpus share one ISO-8601 layout, which the order of strings orders by
    time. *)
Fixpoint createdAtDescending (ps : list Post.t) : bool :=
  match ps with
  | p :: (q :: _) as rest =>
      String.leb (Post.createdAt q) (Post.createdAt p) && createdAtDescending rest
  | _ => true
  end.

(** The record of the turns of a run that the page consults: the one of
    [newRunTurns] when there is one, else the one of [DUMMY_TURNS], else the
    empty record. *)
Definition recordedTurns (DUMMY_TURNS newRunTurns : gmap string (gmap Z Turn.t))
    (runId : string) : gmap Z Turn.t :=
  match newRunTurns !! runId with
  | Some ts => ts
  | None => default ∅ (DUMMY_TURNS !! runId)
  end.

(** A configuration, and a run, with at least one agent and one turn. *)
Definition configValid (c : RunConfig.t) : Prop :=
  1 ≤ RunConfig.numAgents c ∧ 1 ≤ RunConfig.numTurns c.

Definition runValid (r : Run.t) : Prop :=
  1 ≤ Run.totalAgents r ∧ 1 ≤ Run.totalTurns r.

(** What holds of every state the page and its form can reach. *)
Definition appValid (st : App.State) : Prop :=
  (∀ f, App.form st = Some f → configValid (ConfigForm.handleSubmit f))
  ∧ (∀ r, r ∈ Page.runs (App.page st) → runValid r)
  ∧ (∀ id c, Page.runConfigs (App.page st) !! id = Some c → configValid c).

(** [allPosts[i]?.uri] at an integer [i]. *)
Definition uriAt (allPosts : list Post.t) (i : Z) : option string :=
  Post.uri <$> Js.index allPosts (Some i).

(** The window of three cyclically consecutive posts that starts at [s]. *)
Definition window (allPosts : list Post.t) (s : nat) : list Post.t :=
  take 3 (drop s (allPosts ++ allPosts ++ allPosts)).


(** ** The rest of [app/page.tsx] *)

(** [arr.slice(0, end)] for an integer [end]: a negative [end] counts from
    the end of the array. *)
Definition sliceTo {A : Type} (end_ : Z) (xs : list A) : list A :=
  let len := Z.of_nat (length xs) in
  let k := if decide (end_ < 0) then Z.max (len + end_) 0 else Z.min end_ len in
  take (Z.to_nat k) xs.

Module Home.

(** Line 30: [runs.find((r) => r.runId === selectedRunId) || null]. *)
Definition selectedRun (st : Page.State) : option Run.t :=
  match Page.selectedRunId st with
  | None => None
  | Some id => Js.find (fun r => bool_decide (Run.runId r = id)) (Page.runs st)
  end.

(** Lines 31-35. The turn is looked up under the decimal rendering of the
    selected number, in [newRunTurns] first and in [DUMMY_TURNS] when that
    gives nothing. *)
Definition currentTurn (DUMMY_TURNS : gmap string (gmap Z Turn.t))
    (st : Page.State) : option Turn.t :=
  match Page.selectedRunId st, Page.selectedTurn st with
  | Some (String _ _ as id), Some (Page.turn n) =>
      match Page.newRunTurns st !! id ≫= (fun ts => ts !! n) with
      | Some t => Some t
      | None => DUMMY_TURNS !! id ≫= (fun ts => ts !! n)
      end
  | _, _ => None
  end.

(** Lines 54-58. *)
Definition getRunAgents (run : option Run.t) : list Agent.t :=
  match run with
  | None => DUMMY_AGENTS
  | Some r =>
      sliceTo (Z.min (Run.totalAgents r) (Z.of_nat (length DUMMY_AGENTS)))
        DUMMY_AGENTS
  end.

(** Lines 66-77. *)
Definition getRunConfig (st : Page.State) (run : option Run.t)
    : option RunConfig.t :=
  match run with
  | None => None
  | Some r =>
      match Page.runConfigs st !! Run.runId r with
      | Some c => Some c
      | None => Some (RunConfig.mk (Run.totalAgents r) (Run.totalTurns r))
      end
  end.

End Home.

(** ** [components/DetailsPanel.tsx] *)

Module DetailsPanel.

(** Lines 65-68: the posts of the feed of [agent], the URIs that
    [getPostByUri] does not know being dropped. An inherited member is
    truthy and has no [postUris], so that [feed.postUris.map] throws. *)
Definition feedPosts (turn : Turn.t) (agent : Agent.t) : result (list Post.t) :=
  match Js.get (Turn.agentFeeds turn) (Agent.handle agent) with
  | Own feed => Ok (omap getPostByUri (Feed.postUris feed))
  | Inherited => Throw TypeError
  | Undefined => Ok []
  end.

(** Line 69, [turn.agentActions[agent.handle] || []], with the first use of
    the value in [AgentDetail] (line 87, [actions.filter]): an array, also
    an empty one, is truthy and is passed on; an inherited member is truthy
    too, is passed on in place of the array and has no [filter], so that
    rendering the agent throws. *)
Definition agentActions (turn : Turn.t) (agent : Agent.t)
    : result (list AgentAction.t) :=
  match Js.get (Turn.agentActions turn) (Agent.handle agent) with
  | Own actions => Ok actions
  | Inherited => Throw TypeError
  | Undefined => Ok []
  end.

(** Lines 43-45: the posts of all feeds of the turn. [Object.values] lists
    the own entries of the record, integer-like keys first and the others in
    insertion order; the map lists the same entries in its own order, so the
    result is that of the code up to a permutation. *)
Definition allPosts (turn : Turn.t) : list Post.t :=
  map_to_list (Turn.agentFeeds turn)
    ≫= (fun kv => omap getPostByUri (Feed.postUris kv.2)).

End DetailsPanel.

(** ** [components/AgentDetail.tsx] *)

Module AgentDetail.

(** Lines 73-78: the initial value of [expandedSections]. *)
Definition initialSections : gmap string bool :=
  <["metadata" := false]> (<["feed" := false]> (<["likes" := false]>
    (<["comments" := false]> ∅))).

(** Lines 80-85. For a section that is not in the record, [prev[section]]
    is [undefined], and [!prev[section]] is [true], unless the name is that
    of a member of [Object.prototype]: the record inherits the member, which
    is truthy, and [!prev[section]] is [false]. *)
Definition toggleSection (section : string) (prev : gmap string bool)
    : gmap string bool :=
  let current :=
    match prev !! section with
    | Some b => b
    | None => bool_decide (section ∈ Js.objectPrototypeKeys)
    end in
  <[section := negb current]> prev.

(** Lines 87-90. *)
Definition likedPosts (actions : list AgentAction.t) (allPosts : list Post.t)
    : list Post.t :=
  omap
    (fun a =>
       Js.find (fun p => bool_decide (Some (Post.uri p) = AgentAction.postUri a))
         allPosts)
    (filter
       (fun a => AgentAction.type a = like
                 ∧ Js.truthy (AgentAction.postUri a) = true)
       actions).

(** Line 92. *)
Definition comments (actions : list AgentAction.t) : list AgentAction.t :=
  filter (fun a => AgentAction.type a = comment) actions.

End AgentDetail.

(** * Properties *)

(** The generator on the first dummy roster: turn 1 rotates the roster by
    one, and a negative turn number reads outside the roster and throws. *)
Example turn1_first_roster :
  (turn ← createTurnForRun 0 "run_2025-01-15T10:30:00" 1 (slice0 3 DUMMY_AGENTS)
            DUMMY_POSTS;
   Ok (feedUris "@bob.tech" turn, feedUris "@alice.bsky.social" turn))
  = Ok ([ "at://did:plc:example4/post4"; "at://did:plc:example5/post5";
          "at://did:plc:example6/post6" ],
        [ "at://did:plc:example6/post6"; "at://did:plc:example7/post7";
          "at://did:plc:example8/post8" ]).
Proof. vm_compute. reflexivity. Qed.

Example negative_turn_throws :
  createTurnForRun 0 "run_2025-01-15T10:30:00" (-1) (slice0 3 DUMMY_AGENTS)
    DUMMY_POSTS
  = Throw TypeError.
Proof. vm_compute. reflexivity. Qed.

(** ** Remainders and array reads *)

Lemma rem_nonneg_range (x L : Z) : 0 ≤ x → 0 < L → 0 ≤ Z.rem x L < L.
Proof. intros Hx HL. apply Z.rem_bound_pos; lia. Qed.

Lemma rem_abs_range (x L : Z) : 0 < L → - L < Z.rem x L < L.
Proof.
  intros HL. pose proof (Z.rem_bound_abs x L ltac:(lia)) as Hb. lia.
Qed.

Lemma rem_small_neg (x L : Z) : - L < x ≤ 0 → Z.rem x L = x.
Proof.
  intros Hx. assert (x = - (- x)) as -> by lia.
  rewrite Z.rem_opp_l by lia. rewrite Z.rem_small by lia. reflexivity.
Qed.

Lemma rem_wrap (x k L : Z) :
  0 ≤ x < L → 0 ≤ k ≤ L →
  Z.rem (x + k) L = if decide (x + k < L) then x + k else x + k - L.
Proof.
  intros Hx Hk. case_decide as Hlt.
  - apply Z.rem_small. lia.
  - replace (x + k) with ((x + k - L) + 1 * L) at 1 by lia.
    rewrite Z.rem_add by nia. apply Z.rem_small. lia.
Qed.

Lemma index_Some_inv {A : Type} (l : list A) (i : Js.number) (x : A) :
  Js.index l i = Some x →
  ∃ z, i = Some z ∧ 0 ≤ z < Z.of_nat (length l) ∧ l !! Z.to_nat z = Some x.
Proof.
  destruct i as [z|]; simpl; [|discriminate].
  case_decide; [|discriminate]. intros Hl. exists z.
  pose proof (lookup_lt_Some _ _ _ Hl). repeat split; [lia..|assumption].
Qed.

Lemma index_in_range {A : Type} (l : list A) (z : Z) :
  0 ≤ z < Z.of_nat (length l) → Js.index l (Some z) = l !! Z.to_nat z.
Proof. intros Hz. simpl. case_decide; [reflexivity|lia]. Qed.

Lemma index_nil {A : Type} (i : Js.number) : Js.index (@nil A) i = None.
Proof. destruct i as [z|]; simpl; [|reflexivity]. by case_decide. Qed.

Lemma rem_Some (x L : Z) : L ≠ 0 → Js.rem (Some x) (Some L) = Some (Z.rem x L).
Proof. intros HL. simpl. case_decide; [lia|reflexivity]. Qed.

(** ** [forEach] *)

Section forEach.

Context {A St : Type} (f : St → A → Z → result St).

(** An invariant indexed by the number of elements already visited. *)
Lemma forEach_invariant (P : nat → St → Prop) (xs : list A) (idx : Z) (s s' : St) :
  P 0%nat s →
  (∀ (i : nat) (x : A) (u u' : St),
     P i u → xs !! i = Some x → f u x (idx + Z.of_nat i) = Ok u' → P (S i) u') →
  Js.forEach f xs idx s = Ok s' →
  P (length xs) s'.
Proof.
  revert P idx s. induction xs as [|x xs IH]; intros P idx s H0 Hstep Hrun.
  - simpl in Hrun. by injection Hrun as <-.
  - simpl in Hrun. unfold mbind, result_bind in Hrun.
    destruct (f s x idx) as [s1|e] eqn:Hf; [|discriminate].
    apply (IH (fun i => P (S i)) (idx + 1) s1).
    + apply (Hstep 0%nat x s s1 H0); [reflexivity|].
      by rewrite Z.add_0_r.
    + intros i y u u' HP Hy Hfu.
      apply (Hstep (S i) y u u' HP Hy).
      by replace (idx + Z.of_nat (S i)) with (idx + 1 + Z.of_nat i) by lia.
    + exact Hrun.
Qed.

(** The loop returns when no call of the callback throws. *)
Lemma forEach_returns (xs : list A) (idx : Z) (s : St) :
  (∀ (i : nat) (x : A) (u : St),
     xs !! i = Some x → ∃ u', f u x (idx + Z.of_nat i) = Ok u') →
  ∃ s', Js.forEach f xs idx s = Ok s'.
Proof.
  revert idx s. induction xs as [|x xs IH]; intros idx s Hstep.
  - by exists s.
  - simpl. destruct (Hstep 0%nat x s eq_refl) as [s1 Hs1].
    rewrite Z.add_0_r in Hs1. rewrite Hs1. simpl.
    apply IH. intros i y u Hy.
    destruct (Hstep (S i) y u Hy) as [u' Hu'].
    exists u'. by replace (idx + 1 + Z.of_nat i) with (idx + Z.of_nat (S i)) by lia.
Qed.

(** A loop that returns has run its callback on the first element. *)
Lemma forEach_first (xs : list A) (x : A) (idx : Z) (s s' : St) :
  xs !! 0%nat = Some x →
  Js.forEach f xs idx s = Ok s' →
  ∃ u, f s x idx = Ok u.
Proof.
  destruct xs as [|y ys]; [discriminate|]. intros [= ->]. simpl.
  destruct (f s x idx) as [u|e]; [by eexists|discriminate].
Qed.

End forEach.

(** ** The rotation of the roster *)

Section selectAgents.

Variables (turnNumber : Z) (agents : list Agent.t).

Local Abbreviation len := (Z.of_nat (length agents)).

Lemma selectAgents_length :
  length (selectAgents turnNumber agents) = Z.to_nat (Z.min len 5).
Proof. unfold selectAgents. by rewrite length_fmap, length_seqZ. Qed.

Lemma selectAgents_lookup (i : nat) (o : option Agent.t) :
  selectAgents turnNumber agents !! i = Some o →
  Z.of_nat i < Z.min len 5
  ∧ o = Js.index agents (Some (Z.rem (Z.rem turnNumber len + Z.of_nat i) len)).
Proof.
  unfold selectAgents. rewrite list_lookup_fmap.
  destruct (seqZ 0 _ !! i) as [k|] eqn:Hk; [|discriminate].
  apply lookup_seqZ in Hk as [-> Hi].
  intros [= <-]. split; [exact Hi|].
  case_decide; [lia|]. simpl Js.add. rewrite rem_Some by lia.
  by rewrite Z.add_0_l.
Qed.

(** A selected agent that is defined sits in the roster at the rotated
    index, and the start offset is then not negative. *)
Lemma selectAgents_lookup_Some (i : nat) (a : Agent.t) :
  selectAgents turnNumber agents !! i = Some (Some a) →
  let j := Z.rem (Z.rem turnNumber len + Z.of_nat i) len in
  Z.of_nat i < Z.min len 5 ∧ 0 ≤ j < len ∧ agents !! Z.to_nat j = Some a.
Proof.
  intros Hsel j. apply selectAgents_lookup in Hsel as [Hi Ho].
  symmetry in Ho. apply index_Some_inv in Ho as (z & [= <-] & Hz & Hl).
  subst j. repeat split; (assumption || lia).
Qed.

Lemma selectAgents_nonneg (i : nat) (o : option Agent.t) :
  0 ≤ turnNumber →
  selectAgents turnNumber agents !! i = Some o →
  ∃ a, o = Some a
       ∧ agents !! Z.to_nat (Z.rem (Z.rem turnNumber len + Z.of_nat i) len) = Some a.
Proof.
  intros Ht Hsel. apply selectAgents_lookup in Hsel as [Hi ->].
  assert (0 < len) as Hlen by lia.
  pose proof (rem_nonneg_range turnNumber len Ht Hlen) as Hr.
  pose proof (rem_nonneg_range (Z.rem turnNumber len + Z.of_nat i) len
                ltac:(lia) Hlen) as Hj.
  rewrite index_in_range by lia.
  destruct (lookup_lt_is_Some_2 agents
              (Z.to_nat (Z.rem (Z.rem turnNumber len + Z.of_nat i) len)))
    as [a Ha]; [lia|].
  exists a. by rewrite Ha.
Qed.

(** With a start offset that is not negative every selected agent is
    defined. *)
Lemma selectAgents_offset_defined (i : nat) (o : option Agent.t) :
  0 ≤ Z.rem turnNumber len →
  selectAgents turnNumber agents !! i = Some o →
  is_Some o.
Proof.
  intros Hr Hsel. apply selectAgents_lookup in Hsel as [Hi ->].
  assert (0 < len) as Hlen by lia.
  pose proof (rem_abs_range turnNumber len Hlen) as Hb.
  pose proof (rem_nonneg_range (Z.rem turnNumber len + Z.of_nat i) len
                ltac:(lia) Hlen) as Hj.
  rewrite index_in_range by lia.
  apply lookup_lt_is_Some_2. lia.
Qed.

(** The first two selected agents come from different places of the roster. *)
Lemma selectAgents_first_two (a0 a1 : Agent.t) :
  NoDup (Agent.handle <$> agents) →
  selectAgents turnNumber agents !! 0%nat = Some (Some a0) →
  selectAgents turnNumber agents !! 1%nat = Some (Some a1) →
  Agent.handle a0 ≠ Agent.handle a1.
Proof.
  intros Hnd H0 H1 Heq.
  apply selectAgents_lookup_Some in H0 as (_ & Hj0 & Ha0).
  apply selectAgents_lookup_Some in H1 as (Hi1 & Hj1 & Ha1).
  assert (2 ≤ len) as Hlen by lia.
  pose proof (rem_abs_range turnNumber len ltac:(lia)) as Hr.
  set (r := Z.rem turnNumber len) in *.
  change (Z.of_nat 0) with 0 in *. change (Z.of_nat 1) with 1 in *.
  rewrite Z.add_0_r in Hj0, Ha0.
  assert (0 ≤ r) as Hr0.
  { destruct (decide (0 ≤ r)) as [|Hneg]; [assumption|].
    rewrite rem_small_neg in Hj0 by lia. lia. }
  rewrite Z.rem_small in Ha0 by lia.
  rewrite (rem_wrap r 1 len) in Ha1 by lia.
  assert ((Agent.handle <$> agents) !! Z.to_nat r = Some (Agent.handle a0)) as E0.
  { by rewrite list_lookup_fmap, Ha0. }
  case_decide.
  - assert ((Agent.handle <$> agents) !! Z.to_nat (r + 1) = Some (Agent.handle a0)) as E1.
    { by rewrite list_lookup_fmap, Ha1, Heq. }
    pose proof (NoDup_lookup _ _ _ _ Hnd E0 E1). lia.
  - assert ((Agent.handle <$> agents) !! Z.to_nat (r + 1 - len) = Some (Agent.handle a0)) as E1.
    { by rewrite list_lookup_fmap, Ha1, Heq. }
    pose proof (NoDup_lookup _ _ _ _ Hnd E0 E1). lia.
Qed.

(** With at most five agents and a turn number that is not negative, the
    selection is a rotation of the roster: it reaches every agent. *)
Lemma selectAgents_reaches (j : nat) (a : Agent.t) :
  0 ≤ turnNumber → len ≤ 5 →
  agents !! j = Some a →
  ∃ i : nat, selectAgents turnNumber agents !! i = Some (Some a).
Proof.
  intros Ht Hfive Ha.
  pose proof (lookup_lt_Some _ _ _ Ha) as Hj.
  assert (0 < len) as Hlen by lia.
  set (i := (Z.of_nat j - turnNumber) `mod` len).
  pose proof (Z.mod_pos_bound (Z.of_nat j - turnNumber) len Hlen) as Hi.
  fold i in Hi.
  exists (Z.to_nat i). unfold selectAgents. rewrite list_lookup_fmap.
  assert (seqZ 0 (Z.min len 5) !! Z.to_nat i = Some i) as ->.
  { apply lookup_seqZ. lia. }
  simpl. case_decide; [lia|]. simpl Js.add. rewrite rem_Some by lia.
  pose proof (rem_nonneg_range turnNumber len Ht Hlen) as Hr.
  assert (Z.rem (Z.rem turnNumber len + i) len = Z.of_nat j) as ->.
  { rewrite !Z.rem_mod_nonneg by lia. unfold i.
    rewrite <- Z.add_mod by lia.
    replace (turnNumber + (Z.of_nat j - turnNumber)) with (Z.of_nat j) by lia.
    apply Z.mod_small. lia. }
  rewrite index_in_range by lia.
  by rewrite Nat2Z.id, Ha.
Qed.

End selectAgents.

(** ** One call of the generator *)

Section turn.

Variables (Date_now : Z) (runId : string) (turnNumber : Z)
  (agents : list Agent.t) (allPosts : list Post.t).

Local Abbreviation sel := (selectAgents turnNumber agents).
Local Abbreviation nsel := (Z.of_nat (length (selectAgents turnNumber agents))).

Lemma toISOString_Ok_inv (ms v : Z) :
  Js.toISOString ms = Ok v → v = ms ∧ - Js.maxTime ≤ ms ≤ Js.maxTime.
Proof. unfold Js.toISOString. case_decide; [|discriminate]. by intros [= <-]. Qed.

Lemma toISOString_in_range (ms : Z) :
  - Js.maxTime ≤ ms ≤ Js.maxTime → Js.toISOString ms = Ok ms.
Proof. intros Hms. unfold Js.toISOString. by case_decide. Qed.

(** A feed that was built is the record of its arguments. *)
Lemma makeFeed_Ok_inv (h : string) (postUris : list string) (f : Feed.t) :
  makeFeed Date_now runId turnNumber h postUris = Ok f →
  f = Feed.mk
        ("feed_" +:+ runId +:+ "_turn" +:+ pretty turnNumber +:+ "_" +:+ h)
        runId turnNumber h postUris (Date_now + turnNumber * 60000).
Proof.
  unfold makeFeed.
  destruct (Js.toISOString _) as [v|e] eqn:Hv; [|discriminate].
  apply toISOString_Ok_inv in Hv as [-> _]. by intros [= <-].
Qed.

(** What [likeActions] returns: nothing, or the one like of the first post
    of the feed, and the latter at an even position of a turn of even number
    only. *)
Lemma likeActions_Ok_inv (h : string) (idx : Z) (postUris : list string)
    (likes : list AgentAction.t) :
  likeActions Date_now runId turnNumber h idx postUris = Ok likes →
  likes = []
  ∨ (Z.rem turnNumber 2 = 0 ∧ Z.rem idx 2 = 0 ∧ 0 < Z.of_nat (length postUris)
     ∧ likes
       = [ AgentAction.mk
             ("action_" +:+ runId +:+ "_turn" +:+ pretty turnNumber +:+ "_"
                +:+ h +:+ "_1")
             h (postUris !! 0%nat) None like
             (Date_now + turnNumber * 60000 + 5000) ]).
Proof.
  unfold likeActions. case_decide as Hc; [|intros [= <-]; by left].
  destruct (Js.toISOString _) as [v|e] eqn:Hv; [|discriminate].
  apply toISOString_Ok_inv in Hv as [-> _]. intros [= <-]. right.
  destruct Hc as (H2 & Hi & Hlen). by repeat split.
Qed.

Lemma agentStep_Ok_inv (selectedAgents : list (option Agent.t))
    (st st' : gmap string Feed.t * gmap string (list AgentAction.t))
    (agent : option Agent.t) (idx : Z) :
  agentStep Date_now runId turnNumber allPosts selectedAgents st agent idx = Ok st' →
  ∃ a feed likes follows,
    agent = Some a
    ∧ makeFeed Date_now runId turnNumber (Agent.handle a)
        (feedPostUris turnNumber allPosts (Z.of_nat (length selectedAgents)) idx)
      = Ok feed
    ∧ likeActions Date_now runId turnNumber (Agent.handle a) idx
        (feedPostUris turnNumber allPosts (Z.of_nat (length selectedAgents)) idx)
      = Ok likes
    ∧ followActions Date_now runId turnNumber selectedAgents (Agent.handle a) idx
      = Ok follows
    ∧ st' = (<[Agent.handle a := feed]> st.1,
             <[Agent.handle a := likes ++ follows]> st.2).
Proof.
  unfold agentStep. destruct agent as [a|]; [|discriminate].
  destruct (makeFeed _ _ _ _ _) as [feed|e] eqn:Hfeed; [|discriminate]. simpl.
  destruct (likeActions _ _ _ _ _ _) as [likes|e] eqn:Hl; [|discriminate]. simpl.
  destruct (followActions _ _ _ _ _ _) as [follows|e] eqn:Hf; [|discriminate].
  simpl. intros [= <-]. by exists a, feed, likes, follows.
Qed.

Lemma createTurnForRun_Ok_inv (turn : Turn.t) :
  createTurnForRun Date_now runId turnNumber agents allPosts = Ok turn →
  Turn.turnNumber turn = turnNumber
  ∧ Js.forEach (agentStep Date_now runId turnNumber allPosts sel) sel 0 (∅, ∅)
    = Ok (Turn.agentFeeds turn, Turn.agentActions turn).
Proof.
  unfold createTurnForRun.
  destruct (Js.forEach _ _ _ _) as [[fs acts]|e]; [|discriminate].
  simpl. by intros [= <-].
Qed.

(** Every feed of the returned turn was written by the callback for one
    selected agent. *)
Lemma createTurnForRun_feed_inv (turn : Turn.t) (h : string) (f : Feed.t) :
  createTurnForRun Date_now runId turnNumber agents allPosts = Ok turn →
  Turn.agentFeeds turn !! h = Some f →
  ∃ (i : nat) (a : Agent.t),
    sel !! i = Some (Some a) ∧ h = Agent.handle a
    ∧ f = Feed.mk
            ("feed_" +:+ runId +:+ "_turn" +:+ pretty turnNumber +:+ "_" +:+ h)
            runId turnNumber h
            (feedPostUris turnNumber allPosts nsel (Z.of_nat i))
            (Date_now + turnNumber * 60000).
Proof.
  intros Hrun. apply createTurnForRun_Ok_inv in Hrun as [_ Hrun]. revert h f.
  change (Turn.agentFeeds turn) with (Turn.agentFeeds turn, Turn.agentActions turn).1.
  eapply (forEach_invariant _ (fun _ st => ∀ h f, st.1 !! h = Some f → _));
    [| |exact Hrun].
  - intros h f. simpl. by rewrite lookup_empty.
  - intros i x u u' IH Hx Hstep h f.
    apply agentStep_Ok_inv in Hstep as (a & feed & likes & follows & -> & Hfeed & _ & _ & ->).
    apply makeFeed_Ok_inv in Hfeed as ->. simpl.
    destruct (decide (Agent.handle a = h)) as [<-|Hne].
    + rewrite lookup_insert_eq. intros [= <-]. by exists i, a.
    + rewrite lookup_insert_ne by done. apply IH.
Qed.

(** Likewise for the action lists. *)
Lemma createTurnForRun_actions_inv (turn : Turn.t) (h : string)
    (acts : list AgentAction.t) :
  createTurnForRun Date_now runId turnNumber agents allPosts = Ok turn →
  Turn.agentActions turn !! h = Some acts →
  ∃ (i : nat) (a : Agent.t) (likes follows : list AgentAction.t),
    sel !! i = Some (Some a) ∧ h = Agent.handle a
    ∧ likeActions Date_now runId turnNumber h (Z.of_nat i)
        (feedPostUris turnNumber allPosts nsel (Z.of_nat i)) = Ok likes
    ∧ followActions Date_now runId turnNumber sel h (Z.of_nat i) = Ok follows
    ∧ acts = likes ++ follows.
Proof.
  intros Hrun. apply createTurnForRun_Ok_inv in Hrun as [_ Hrun]. revert h acts.
  change (Turn.agentActions turn)
    with (Turn.agentFeeds turn, Turn.agentActions turn).2.
  eapply (forEach_invariant _ (fun _ st => ∀ h acts, st.2 !! h = Some acts → _));
    [| |exact Hrun].
  - intros h acts. simpl. by rewrite lookup_empty.
  - intros i x u u' IH Hx Hstep h acts.
    apply agentStep_Ok_inv in Hstep as (a & feed & likes & follows & -> & _ & Hl & Hf & ->).
    simpl.
    destruct (decide (Agent.handle a = h)) as [<-|Hne].
    + rewrite lookup_insert_eq. intros [= <-]. by exists i, a, likes, follows.
    + rewrite lookup_insert_ne by done. apply IH.
Qed.

(** Every selected agent has a feed under its handle. *)
Lemma createTurnForRun_feed_dom (turn : Turn.t) (i : nat) (a : Agent.t) :
  createTurnForRun Date_now runId turnNumber agents allPosts = Ok turn →
  sel !! i = Some (Some a) →
  ∃ f, Turn.agentFeeds turn !! Agent.handle a = Some f
       ∧ Feed.agentHandle f = Agent.handle a.
Proof.
  intros Hrun Hi. apply createTurnForRun_Ok_inv in Hrun as [_ Hrun].
  change (Turn.agentFeeds turn) with (Turn.agentFeeds turn, Turn.agentActions turn).1.
  pose proof (lookup_lt_Some _ _ _ Hi) as Hlt. revert i a Hi Hlt.
  eapply (forEach_invariant _
            (fun n st => ∀ (i : nat) a, sel !! i = Some (Some a) → (i < n)%nat →
               ∃ f, st.1 !! Agent.handle a = Some f
                    ∧ Feed.agentHandle f = Agent.handle a));
    [| |exact Hrun].
  - intros i a _ Hlt. lia.
  - intros n x u u' IH Hx Hstep i a Hi Hlt.
    apply agentStep_Ok_inv in Hstep as (b & feed & likes & follows & -> & Hfeed & _ & _ & ->).
    apply makeFeed_Ok_inv in Hfeed as ->. simpl.
    destruct (decide (Agent.handle b = Agent.handle a)) as [Heq|Hne].
    + rewrite Heq, lookup_insert_eq. eexists. split; [reflexivity|]. reflexivity.
    + rewrite lookup_insert_ne by done. apply (IH i a Hi).
      destruct (decide (i = n)) as [->|]; [|lia].
      rewrite Hx in Hi. by injection Hi as ->.
Qed.

(** In a call that returns, every selected agent is defined. *)
Lemma createTurnForRun_selected_defined (turn : Turn.t) (i : nat)
    (o : option Agent.t) :
  createTurnForRun Date_now runId turnNumber agents allPosts = Ok turn →
  sel !! i = Some o → is_Some o.
Proof.
  intros Hrun Hi. apply createTurnForRun_Ok_inv in Hrun as [_ Hrun].
  pose proof (lookup_lt_Some _ _ _ Hi) as Hlt. revert i o Hi Hlt.
  eapply (forEach_invariant _
            (fun n _ => ∀ (i : nat) o, sel !! i = Some o → (i < n)%nat → is_Some o));
    [| |exact Hrun].
  - intros i o _ Hlt. lia.
  - intros n x u u' IH Hx Hstep i o Hi Hlt.
    apply agentStep_Ok_inv in Hstep as (b & feed & likes & follows & -> & _).
    destruct (decide (i = n)) as [->|]; [|apply (IH i o Hi); lia].
    rewrite Hx in Hi. injection Hi as <-. by eexists.
Qed.

(** The call returns for an empty roster, and for a start offset that is
    not negative when the timestamps of the turn are in the range of
    [Date]. *)
Lemma createTurnForRun_returns_offset :
  agents = []
  ∨ (0 ≤ Z.rem turnNumber (Z.of_nat (length agents))
     ∧ - Js.maxTime ≤ Date_now + turnNumber * 60000
     ∧ Date_now + turnNumber * 60000 + 7000 ≤ Js.maxTime) →
  ∃ turn, createTurnForRun Date_now runId turnNumber agents allPosts = Ok turn.
Proof.
  intros [->|(Hr & Hlo & Hhi)]; [by eexists|]. unfold createTurnForRun.
  destruct (forEach_returns (agentStep Date_now runId turnNumber allPosts sel)
              sel 0 (∅, ∅)) as [st Hst].
  - intros i x u Hx.
    destruct (selectAgents_offset_defined turnNumber agents i x Hr Hx) as [a ->].
    assert (∃ likes,
              likeActions Date_now runId turnNumber (Agent.handle a)
                (0 + Z.of_nat i) (feedPostUris turnNumber allPosts nsel (0 + Z.of_nat i))
              = Ok likes) as [likes Hlikes].
    { unfold likeActions. case_decide; [|by eexists].
      rewrite toISOString_in_range by lia. by eexists. }
    assert (∃ follows,
              followActions Date_now runId turnNumber sel (Agent.handle a)
                (0 + Z.of_nat i) = Ok follows) as [follows Hfollows].
    { unfold followActions. case_decide as Hc; [|by eexists].
      destruct Hc as (_ & _ & Hlen).
      destruct (lookup_lt_is_Some_2 sel 1%nat ltac:(lia)) as [o Ho].
      destruct (selectAgents_offset_defined turnNumber agents 1%nat o Hr Ho) as [b ->].
      rewrite Ho, toISOString_in_range by lia. by eexists. }
    unfold agentStep, makeFeed. rewrite toISOString_in_range by lia. simpl.
    rewrite Hlikes. simpl. rewrite Hfollows. simpl. by eexists.
  - rewrite Hst. simpl. eauto.
Qed.

(** In particular it returns for every turn number that is not negative and
    whose timestamps are in the range of [Date]. *)
Lemma createTurnForRun_returns :
  0 ≤ turnNumber →
  - Js.maxTime ≤ Date_now + turnNumber * 60000 →
  Date_now + turnNumber * 60000 + 7000 ≤ Js.maxTime →
  ∃ turn, createTurnForRun Date_now runId turnNumber agents allPosts = Ok turn.
Proof.
  intros Ht Hlo Hhi. apply createTurnForRun_returns_offset.
  destruct agents as [|a l] eqn:Ha; [by left|right].
  split; [|by split]. apply Z.rem_nonneg; [simpl; lia|assumption].
Qed.

(** A call that returns for a roster that is not empty had a start offset
    that is not negative and built the feed of the first selected agent. *)
Lemma createTurnForRun_Ok_offset (turn : Turn.t) :
  createTurnForRun Date_now runId turnNumber agents allPosts = Ok turn →
  agents = []
  ∨ (0 ≤ Z.rem turnNumber (Z.of_nat (length agents))
     ∧ - Js.maxTime ≤ Date_now + turnNumber * 60000 ≤ Js.maxTime).
Proof.
  intros Hrun. destruct (decide (agents = [])) as [|Hne]; [by left|right].
  assert (0 < Z.of_nat (length agents)) as Hlen
    by (destruct agents; [done|simpl; lia]).
  destruct (lookup_lt_is_Some_2 sel 0%nat) as [o Ho].
  { rewrite selectAgents_length. lia. }
  destruct (createTurnForRun_selected_defined _ _ _ Hrun Ho) as [a0 ->].
  split.
  - apply selectAgents_lookup_Some in Ho as (_ & Hj0 & _).
    set (len := Z.of_nat (length agents)) in *.
    pose proof (rem_abs_range turnNumber len Hlen) as Hb.
    change (Z.of_nat 0) with 0 in Hj0. rewrite Z.add_0_r in Hj0.
    destruct (decide (0 ≤ Z.rem turnNumber len)) as [|Hneg]; [assumption|].
    rewrite rem_small_neg in Hj0 by lia. lia.
  - apply createTurnForRun_Ok_inv in Hrun as [_ Hrun].
    destruct (forEach_first _ _ _ _ _ _ Ho Hrun) as [u Hu].
    apply agentStep_Ok_inv in Hu as (a & feed & likes & follows & _ & Hfeed & _).
    unfold makeFeed in Hfeed.
    destruct (Js.toISOString _) as [v|e] eqn:Hv; [|discriminate].
    by apply toISOString_Ok_inv in Hv as [_ Hv].
Qed.

End turn.

(** ** The post URIs of one feed *)

Section feedPostUris.

Variables (turnNumber : Z) (allPosts : list Post.t).

Local Abbreviation plen := (Z.of_nat (length allPosts)).

(** On a corpus that is not empty the three reads are at the remainders of
    [s], [s + 1] and [s + 2], for [s] the start index. *)
Lemma feedPostUris_unfold (nsel idx : Z) :
  allPosts ≠ [] →
  let s := Z.rem (turnNumber * nsel + idx) plen in
  feedPostUris turnNumber allPosts nsel idx
  = Js.filterBoolean
      [ uriAt allPosts (Z.rem s plen); uriAt allPosts (Z.rem (s + 1) plen);
        uriAt allPosts (Z.rem (s + 2) plen) ].
Proof.
  intros Hne s. assert (plen ≠ 0) as Hlen by (destruct allPosts; simpl; [done|lia]).
  unfold feedPostUris, uriAt. rewrite (rem_Some _ _ Hlen). fold s.
  simpl Js.add. by rewrite !(rem_Some _ _ Hlen).
Qed.

Lemma feedPostUris_nil (nsel idx : Z) :
  allPosts = [] → feedPostUris turnNumber allPosts nsel idx = [].
Proof. intros ->. unfold feedPostUris. by rewrite !index_nil. Qed.

Lemma filterBoolean_length (os : list (option string)) :
  (length (Js.filterBoolean os) ≤ length os)%nat.
Proof.
  unfold Js.filterBoolean. induction os as [|o os IH]; csimpl; [lia|].
  destruct (if truthy o then o else None); csimpl; lia.
Qed.

Lemma feedPostUris_length (nsel idx : Z) :
  (length (feedPostUris turnNumber allPosts nsel idx) ≤ 3)%nat.
Proof. unfold feedPostUris. apply (filterBoolean_length [_; _; _]). Qed.

Lemma uriAt_inj (i j : Z) (u : string) :
  NoDup (Post.uri <$> allPosts) →
  uriAt allPosts i = Some u → uriAt allPosts j = Some u → i = j.
Proof.
  unfold uriAt. intros Hnd Hi Hj.
  apply fmap_Some in Hi as (p & Hp & ->). apply fmap_Some in Hj as (q & Hq & Hu).
  apply index_Some_inv in Hp as (z & [= <-] & Hz & Hp).
  apply index_Some_inv in Hq as (z' & [= <-] & Hz' & Hq).
  assert (Z.to_nat i = Z.to_nat j); [|lia].
  apply (NoDup_lookup (Post.uri <$> allPosts) _ _ (Post.uri p) Hnd).
  - by rewrite list_lookup_fmap, Hp.
  - by rewrite list_lookup_fmap, Hq, Hu.
Qed.

Lemma filterBoolean_three_NoDup (o0 o1 o2 : option string) :
  (∀ u, o0 = Some u → o1 = Some u → False) →
  (∀ u, o0 = Some u → o2 = Some u → False) →
  (∀ u, o1 = Some u → o2 = Some u → False) →
  NoDup (Js.filterBoolean [o0; o1; o2]).
Proof.
  intros H01 H02 H12. unfold Js.filterBoolean.
  destruct o0 as [[|c0 s0]|], o1 as [[|c1 s1]|], o2 as [[|c2 s2]|]; simpl;
    repeat (apply NoDup_cons; split); try apply NoDup_nil_2;
    rewrite ?elem_of_cons, ?elem_of_nil;
    intros Hin; repeat destruct Hin as [Hin|Hin]; simplify_eq; eauto.
Qed.

(** The three reads of a feed are at pairwise different places when the
    corpus has three posts or more. *)
Lemma feed_indices_distinct (s : Z) :
  3 ≤ plen →
  let r := Z.rem s plen in
  Z.rem r plen ≠ Z.rem (r + 1) plen
  ∧ Z.rem r plen ≠ Z.rem (r + 2) plen
  ∧ Z.rem (r + 1) plen ≠ Z.rem (r + 2) plen.
Proof.
  intros Hlen r. pose proof (rem_abs_range s plen ltac:(lia)) as Hr. fold r in Hr.
  destruct (decide (0 ≤ r)) as [Hpos|Hneg].
  - rewrite (Z.rem_small r) by lia.
    rewrite (rem_wrap r 1), (rem_wrap r 2) by lia.
    repeat case_decide; lia.
  - rewrite (rem_small_neg r), (rem_small_neg (r + 1)) by lia.
    destruct (decide (r + 2 ≤ 0)).
    + rewrite (rem_small_neg (r + 2)) by lia. lia.
    + rewrite (Z.rem_small (r + 2)) by lia. lia.
Qed.

Lemma feedPostUris_NoDup (nsel idx : Z) :
  3 ≤ plen → NoDup (Post.uri <$> allPosts) →
  NoDup (feedPostUris turnNumber allPosts nsel idx).
Proof.
  intros Hlen Hnd.
  rewrite feedPostUris_unfold by (intros ->; simpl in Hlen; lia).
  destruct (feed_indices_distinct (turnNumber * nsel + idx) Hlen) as (H01 & H02 & H12).
  apply filterBoolean_three_NoDup; intros u Hi Hj;
    pose proof (uriAt_inj _ _ _ Hnd Hi Hj); contradiction.
Qed.

(** Reading a list at a remainder is reading three copies of it in a row. *)
Lemma index_rem_cycle {A : Type} (l : list A) (x : Z) :
  0 ≤ x < 3 * Z.of_nat (length l) →
  Js.index l (Some (Z.rem x (Z.of_nat (length l)))) = (l ++ l ++ l) !! Z.to_nat x.
Proof.
  intros Hx. set (L := Z.of_nat (length l)) in *.
  destruct (decide (x < L)) as [H1|H1].
  - rewrite Z.rem_small by lia. rewrite index_in_range by lia.
    by rewrite lookup_app_l by lia.
  - destruct (decide (x < 2 * L)) as [H2|H2].
    + replace x with ((x - L) + 1 * L) at 1 by lia.
      rewrite Z.rem_add by nia. rewrite Z.rem_small by lia.
      rewrite index_in_range by lia.
      rewrite lookup_app_r by lia. rewrite lookup_app_l by lia.
      f_equal. lia.
    + replace x with ((x - 2 * L) + 2 * L) at 1 by lia.
      rewrite Z.rem_add by nia. rewrite Z.rem_small by lia.
      rewrite index_in_range by lia.
      rewrite lookup_app_r by lia. rewrite lookup_app_r by (rewrite ?length_app; lia).
      f_equal. lia.
Qed.

Lemma take_three_drop {A : Type} (l : list A) (s : nat) :
  take 3 (drop s l) = omap id [l !! s; l !! S s; l !! S (S s)]
  ∨ (length l < s + 3)%nat.
Proof.
  destruct (decide (length l < s + 3)%nat) as [|Hge]; [by right|left].
  destruct (lookup_lt_is_Some_2 l s ltac:(lia)) as [x0 H0].
  destruct (lookup_lt_is_Some_2 l (S s) ltac:(lia)) as [x1 H1].
  destruct (lookup_lt_is_Some_2 l (S (S s)) ltac:(lia)) as [x2 H2].
  rewrite H0, H1, H2. simpl.
  rewrite (drop_S _ _ _ H0), (drop_S _ _ _ H1), (drop_S _ _ _ H2). reflexivity.
Qed.

End feedPostUris.

(** ** Feeds *)

(** On a corpus that is not empty and has no empty URI, a feed of a turn
    whose number is not negative lists three URIs, however few posts there
    are. *)
Lemma feedPostUris_full (turnNumber : Z) (allPosts : list Post.t) (nsel idx : Z) :
  0 ≤ turnNumber → 0 ≤ nsel → 0 ≤ idx →
  allPosts ≠ [] →
  (∀ p, p ∈ allPosts → Post.uri p ≠ EmptyString) →
  length (feedPostUris turnNumber allPosts nsel idx) = 3%nat.
Proof.
  intros Ht Hn Hi Hne Huris.
  assert (0 < Z.of_nat (length allPosts)) as HL
    by (destruct allPosts; simpl; [done|lia]).
  rewrite feedPostUris_unfold by assumption. simpl.
  set (L := Z.of_nat (length allPosts)) in *.
  assert (∀ j, 0 ≤ j →
            ∃ c u, uriAt allPosts (Z.rem j L) = Some (String c u)) as Hat.
  { intros j Hj. pose proof (rem_nonneg_range j L Hj HL) as Hr.
    unfold uriAt. rewrite index_in_range by (subst L; lia).
    destruct (lookup_lt_is_Some_2 allPosts (Z.to_nat (Z.rem j L))
                ltac:(subst L; lia)) as [p Hp].
    rewrite Hp. simpl.
    pose proof (Huris p (list_elem_of_lookup_2 _ _ _ Hp)) as Hu.
    destruct (Post.uri p) as [|c u]; [done|]. by exists c, u. }
  pose proof (rem_nonneg_range (turnNumber * nsel + idx) L ltac:(nia) HL) as Hs.
  destruct (Hat (Z.rem (turnNumber * nsel + idx) L) ltac:(lia)) as (c0 & u0 & ->).
  destruct (Hat (Z.rem (turnNumber * nsel + idx) L + 1) ltac:(lia)) as (c1 & u1 & ->).
  destruct (Hat (Z.rem (turnNumber * nsel + idx) L + 2) ltac:(lia)) as (c2 & u2 & ->).
  reflexivity.
Qed.

(** C5, as stated, fails. A corpus of one post is exhausted by the first of
    the three places of a feed, yet the feed is not shorter: it lists the
    post three times. And a call can raise: a negative turn number reads
    outside the roster, and a turn number whose timestamp is out of the
    range of [Date] makes [toISOString] throw. *)
Lemma feed_not_shorter_and_call_can_throw :
  (∃ turn,
     createTurnForRun 0 "run_2025-01-15T10:30:00" 0 (slice0 3 DUMMY_AGENTS)
       (slice0 1 DUMMY_POSTS) = Ok turn
     ∧ feedUris "@alice.bsky.social" turn
       = [ "at://did:plc:example1/post1"; "at://did:plc:example1/post1";
           "at://did:plc:example1/post1" ])
  ∧ createTurnForRun 0 "run_2025-01-15T10:30:00" (-1) (slice0 3 DUMMY_AGENTS)
      DUMMY_POSTS = Throw TypeError
  ∧ createTurnForRun 0 "run_2025-01-15T10:30:00" 144000000001
      (slice0 3 DUMMY_AGENTS) DUMMY_POSTS = Throw RangeError.
Proof.
  split; [eexists; split; vm_compute; reflexivity|].
  split; vm_compute; reflexivity.
Qed.

(** C5, amended. Every feed of a returned turn lists at most three post
    URIs: none when the corpus is empty, and exactly three, posts being
    listed again where the corpus has fewer, when the turn number is not
    negative and the corpus is not empty and has no empty URI. The call
    returns when the roster is empty, and when the start offset
    [turnNumber % agents.length] is not negative (the turn number is not
    negative or is a multiple of the size of the roster) and the timestamps
    of the turn are in the range of [Date]; it returns only if the roster is
    empty, or the start offset is not negative and the timestamp of the
    feeds is in that range. *)
Theorem feed_size_at_most_three (Date_now : Z) (runId : string) (turnNumber : Z)
    (agents : list Agent.t) (allPosts : list Post.t) :
  (∀ turn h f,
     createTurnForRun Date_now runId turnNumber agents allPosts = Ok turn →
     Turn.agentFeeds turn !! h = Some f →
     (length (Feed.postUris f) ≤ 3)%nat
     ∧ (allPosts = [] → Feed.postUris f = [])
     ∧ (0 ≤ turnNumber → allPosts ≠ [] →
        (∀ p, p ∈ allPosts → Post.uri p ≠ EmptyString) →
        length (Feed.postUris f) = 3%nat))
  ∧ (agents = []
     ∨ (0 ≤ Z.rem turnNumber (Z.of_nat (length agents))
        ∧ - Js.maxTime ≤ Date_now + turnNumber * 60000
        ∧ Date_now + turnNumber * 60000 + 7000 ≤ Js.maxTime) →
     ∃ turn, createTurnForRun Date_now runId turnNumber agents allPosts = Ok turn)
  ∧ (∀ turn,
       createTurnForRun Date_now runId turnNumber agents allPosts = Ok turn →
       agents = []
       ∨ (0 ≤ Z.rem turnNumber (Z.of_nat (length agents))
          ∧ - Js.maxTime ≤ Date_now + turnNumber * 60000 ≤ Js.maxTime)).
Proof.
  split; [|split; [apply createTurnForRun_returns_offset
                  |apply createTurnForRun_Ok_offset]].
  intros turn h f Hrun Hf.
  destruct (createTurnForRun_feed_inv _ _ _ _ _ _ _ _ Hrun Hf) as (i & a & _ & _ & ->).
  simpl. split; [apply feedPostUris_length|]. split; [apply feedPostUris_nil|].
  intros Ht Hne Huris. apply feedPostUris_full; (assumption || lia).
Qed.

(** The theorem at work: in turn 0 of the first dummy run the call returns
    and the feed of @alice has three URIs; on a corpus of two posts it still
    has three; and the call returns in turn -3, a multiple of the size of
    the roster. *)
Lemma feed_size_at_most_three_witness :
  (∃ turn f,
     createTurnForRun 0 "run_2025-01-15T10:30:00" 0 (slice0 3 DUMMY_AGENTS)
       DUMMY_POSTS = Ok turn
     ∧ Turn.agentFeeds turn !! "@alice.bsky.social" = Some f
     ∧ length (Feed.postUris f) = 3%nat)
  ∧ (∃ turn f,
       createTurnForRun 0 "run_2025-01-15T10:30:00" 1 (slice0 3 DUMMY_AGENTS)
         (slice0 2 DUMMY_POSTS) = Ok turn
       ∧ Turn.agentFeeds turn !! "@bob.tech" = Some f
       ∧ Feed.postUris f
         = [ "at://did:plc:example2/post2"; "at://did:plc:example1/post1";
             "at://did:plc:example2/post2" ]
       ∧ (length (Feed.postUris f) ≤ 3)%nat)
  ∧ (∃ turn,
       createTurnForRun 0 "run_2025-01-15T10:30:00" (-3) (slice0 3 DUMMY_AGENTS)
         DUMMY_POSTS = Ok turn).
Proof.
  assert (∀ t, - 1000 ≤ t ≤ 1000 → Z.rem t 3 = 0 →
            slice0 3 DUMMY_AGENTS = []
            ∨ (0 ≤ Z.rem t (Z.of_nat (length (slice0 3 DUMMY_AGENTS)))
               ∧ - Js.maxTime ≤ 0 + t * 60000
               ∧ 0 + t * 60000 + 7000 ≤ Js.maxTime)) as Hcond.
  { intros t Ht Hr. right. change (Z.of_nat (length (slice0 3 DUMMY_AGENTS))) with 3.
    unfold Js.maxTime. lia. }
  split; [|split].
  - destruct (feed_size_at_most_three 0 "run_2025-01-15T10:30:00" 0
                (slice0 3 DUMMY_AGENTS) DUMMY_POSTS) as (Hbound & Hret & _).
    destruct (Hret (Hcond 0 ltac:(lia) eq_refl)) as [turn Hturn].
    assert (∃ f, Turn.agentFeeds turn !! "@alice.bsky.social" = Some f) as [f Hf].
    { vm_compute in Hturn. injection Hturn as <-. eexists. vm_compute. reflexivity. }
    exists turn, f. split; [exact Hturn|]. split; [exact Hf|].
    destruct (Hbound turn _ f Hturn Hf) as (_ & _ & Hfull).
    apply Hfull; [lia|discriminate|].
    intros p Hp. apply list_elem_of_fmap_2 with (f := Post.uri) in Hp.
    revert Hp. generalize (Post.uri p). intros u Hu ->.
    apply (bool_decide_pack (EmptyString ∈ Post.uri <$> DUMMY_POSTS)) in Hu.
    vm_compute in Hu. exact Hu.
  - assert (∃ turn f,
              createTurnForRun 0 "run_2025-01-15T10:30:00" 1 (slice0 3 DUMMY_AGENTS)
                (slice0 2 DUMMY_POSTS) = Ok turn
              ∧ Turn.agentFeeds turn !! "@bob.tech" = Some f
              ∧ Feed.postUris f
                = [ "at://did:plc:example2/post2"; "at://did:plc:example1/post1";
                    "at://did:plc:example2/post2" ])
      as (turn & f & Hturn & Hf & Huris).
    { eexists _, _. split; [vm_compute; reflexivity|].
      split; vm_compute; reflexivity. }
    exists turn, f. repeat split; try assumption.
    destruct (feed_size_at_most_three 0 "run_2025-01-15T10:30:00" 1
                (slice0 3 DUMMY_AGENTS) (slice0 2 DUMMY_POSTS)) as [Hbound _].
    by destruct (Hbound turn _ f Hturn Hf) as (Hlen & _).
  - destruct (feed_size_at_most_three 0 "run_2025-01-15T10:30:00" (-3)
                (slice0 3 DUMMY_AGENTS) DUMMY_POSTS) as (_ & Hret & _).
    exact (Hret (Hcond (-3) ltac:(lia) eq_refl)).
Defined.

(** C1, as stated, fails: in the first dummy run @bob is shown post4 in turn
    0 and again in turn 1. *)
Lemma bob_is_shown_post4_twice :
  ∃ turns,
    runTurns 0 "run_2025-01-15T10:30:00" (slice0 3 DUMMY_AGENTS) DUMMY_POSTS 2
    = Ok turns
    ∧ shownTo "@bob.tech" turns
      = [ "at://did:plc:example2/post2"; "at://did:plc:example3/post3";
          "at://did:plc:example4/post4"; "at://did:plc:example4/post4";
          "at://did:plc:example5/post5"; "at://did:plc:example6/post6" ]
    ∧ ¬ NoDup (shownTo "@bob.tech" turns).
Proof.
  eexists. split; [vm_compute; reflexivity|].
  split; [vm_compute; reflexivity|].
  apply (proj1 (bool_decide_eq_false _)). vm_compute. reflexivity.
Qed.

(** C1, amended. Within one turn no feed lists a post twice, provided the
    corpus has three posts or more, with pairwise different URIs. *)
Theorem feed_has_no_duplicate_uri (Date_now : Z) (runId : string)
    (turnNumber : Z) (agents : list Agent.t) (allPosts : list Post.t)
    (turn : Turn.t) (h : string) (f : Feed.t) :
  (3 ≤ length allPosts)%nat →
  NoDup (Post.uri <$> allPosts) →
  createTurnForRun Date_now runId turnNumber agents allPosts = Ok turn →
  Turn.agentFeeds turn !! h = Some f →
  NoDup (Feed.postUris f).
Proof.
  intros Hlen Hnd Hrun Hf.
  destruct (createTurnForRun_feed_inv _ _ _ _ _ _ _ _ Hrun Hf) as (i & a & _ & _ & ->).
  simpl. apply feedPostUris_NoDup; [lia|assumption].
Qed.

Lemma DUMMY_POSTS_uris_NoDup : NoDup (Post.uri <$> DUMMY_POSTS).
Proof. apply (bool_decide_unpack (NoDup (Post.uri <$> DUMMY_POSTS))). vm_compute. exact I. Defined.

Lemma feed_has_no_duplicate_uri_witness :
  ∃ turn f,
    createTurnForRun 0 "run_2025-01-15T10:30:00" 1 (slice0 3 DUMMY_AGENTS)
      DUMMY_POSTS = Ok turn
    ∧ Turn.agentFeeds turn !! "@bob.tech" = Some f
    ∧ NoDup (Feed.postUris f).
Proof.
  eexists _, _. split; [vm_compute; reflexivity|].
  split; [vm_compute; reflexivity|].
  eapply (feed_has_no_duplicate_uri 0 "run_2025-01-15T10:30:00" 1
            (slice0 3 DUMMY_AGENTS) DUMMY_POSTS _ "@bob.tech").
  - simpl. lia.
  - exact DUMMY_POSTS_uris_NoDup.
  - vm_compute. reflexivity.
  - vm_compute. reflexivity.
Defined.

(** C2, as stated, fails: the feed of @alice in turn 0 of the first dummy
    run starts with her own oldest post and runs oldest first. *)
Lemma alice_feed_is_oldest_first_with_own_post :
  ∃ turn f,
    createTurnForRun 0 "run_2025-01-15T10:30:00" 0 (slice0 3 DUMMY_AGENTS)
      DUMMY_POSTS = Ok turn
    ∧ Turn.agentFeeds turn !! "@alice.bsky.social" = Some f
    ∧ Feed.postUris f
      = [ "at://did:plc:example1/post1"; "at://did:plc:example2/post2";
          "at://did:plc:example3/post3" ]
    ∧ createdAtDescending (feedPosts DUMMY_POSTS (Feed.postUris f)) = false
    ∧ Post.authorHandle <$> feedPosts DUMMY_POSTS (Feed.postUris f)
      = [ Feed.agentHandle f; "@bob.tech"; "@charlie.dev" ].
Proof.
  eexists _, _. split; [vm_compute; reflexivity|].
  split; [vm_compute; reflexivity|].
  repeat split; vm_compute; reflexivity.
Qed.

(** C2, amended. A feed lists, in corpus order, the non-empty URIs of three
    cyclically consecutive posts of the corpus; the window of the agent
    selected at position [i] starts at index
    [(turnNumber * |selectedAgents| + i) mod |allPosts|]. *)
Theorem feed_is_corpus_window (Date_now : Z) (runId : string) (turnNumber : Z)
    (agents : list Agent.t) (allPosts : list Post.t)
    (turn : Turn.t) (h : string) (f : Feed.t) :
  0 ≤ turnNumber →
  allPosts ≠ [] →
  createTurnForRun Date_now runId turnNumber agents allPosts = Ok turn →
  Turn.agentFeeds turn !! h = Some f →
  ∃ (i : nat) (a : Agent.t),
    selectAgents turnNumber agents !! i = Some (Some a)
    ∧ h = Agent.handle a
    ∧ Feed.postUris f
      = Js.filterBoolean
          ((fun p => Some (Post.uri p))
             <$> window allPosts
                   (Z.to_nat
                      ((turnNumber * Z.of_nat (length (selectAgents turnNumber agents))
                        + Z.of_nat i) `mod` Z.of_nat (length allPosts)))).
Proof.
  intros Ht Hne Hrun Hf.
  destruct (createTurnForRun_feed_inv _ _ _ _ _ _ _ _ Hrun Hf) as (i & a & Hi & -> & ->).
  exists i, a. split; [assumption|]. split; [reflexivity|]. simpl.
  set (nsel := Z.of_nat (length (selectAgents turnNumber agents))).
  set (L := Z.of_nat (length allPosts)).
  assert (0 < L) as HL by (subst L; destruct allPosts; simpl; [done|lia]).
  rewrite feedPostUris_unfold by assumption. fold L. simpl.
  rewrite <- Z.rem_mod_nonneg by nia.
  set (s := Z.rem (turnNumber * nsel + Z.of_nat i) L).
  assert (0 ≤ s < L) as Hs by (apply rem_nonneg_range; nia).
  unfold uriAt. subst L.
  rewrite !index_rem_cycle by lia.
  unfold window.
  destruct (take_three_drop (allPosts ++ allPosts ++ allPosts) (Z.to_nat s))
    as [->|Hshort]; [|rewrite !length_app in Hshort; lia].
  replace (Z.to_nat (s + 1)) with (S (Z.to_nat s)) by lia.
  replace (Z.to_nat (s + 2)) with (S (S (Z.to_nat s))) by lia.
  destruct (lookup_lt_is_Some_2 (allPosts ++ allPosts ++ allPosts) (Z.to_nat s)
              ltac:(rewrite !length_app; lia)) as [x0 ->].
  destruct (lookup_lt_is_Some_2 (allPosts ++ allPosts ++ allPosts) (S (Z.to_nat s))
              ltac:(rewrite !length_app; lia)) as [x1 ->].
  destruct (lookup_lt_is_Some_2 (allPosts ++ allPosts ++ allPosts) (S (S (Z.to_nat s)))
              ltac:(rewrite !length_app; lia)) as [x2 ->].
  reflexivity.
Qed.

Lemma feed_is_corpus_window_witness :
  ∃ turn f (i : nat) (a : Agent.t),
    createTurnForRun 0 "run_2025-01-15T10:30:00" 3 (slice0 3 DUMMY_AGENTS)
      DUMMY_POSTS = Ok turn
    ∧ Turn.agentFeeds turn !! "@alice.bsky.social" = Some f
    ∧ selectAgents 3 (slice0 3 DUMMY_AGENTS) !! i = Some (Some a)
    ∧ "@alice.bsky.social" = Agent.handle a
    ∧ Feed.postUris f
      = Js.filterBoolean
          ((fun p => Some (Post.uri p))
             <$> window DUMMY_POSTS
                   (Z.to_nat
                      ((3 * Z.of_nat (length (selectAgents 3 (slice0 3 DUMMY_AGENTS)))
                        + Z.of_nat i) `mod` Z.of_nat (length DUMMY_POSTS)))).
Proof.
  assert (∃ turn f,
            createTurnForRun 0 "run_2025-01-15T10:30:00" 3 (slice0 3 DUMMY_AGENTS)
              DUMMY_POSTS = Ok turn
            ∧ Turn.agentFeeds turn !! "@alice.bsky.social" = Some f)
    as (turn & f & Hturn & Hf).
  { eexists _, _. split; vm_compute; reflexivity. }
  destruct (feed_is_corpus_window 0 "run_2025-01-15T10:30:00" 3
              (slice0 3 DUMMY_AGENTS) DUMMY_POSTS turn "@alice.bsky.social" f)
    as (i & a & Hi & Hh & Huris).
  - lia.
  - discriminate.
  - exact Hturn.
  - exact Hf.
  - by exists turn, f, i, a.
Defined.

(** ** Who gets a feed *)

(** C3, as stated, fails: of the eight dummy agents, whose handles are
    pairwise different, only the first five get a feed in turn 0. *)
Lemma fiona_gets_no_feed :
  NoDup (Agent.handle <$> DUMMY_AGENTS)
  ∧ DUMMY_AGENTS !! 5%nat
    = Some (Agent.mk "@fiona.frontend" "Fiona Lee"
              "Frontend engineer | React enthusiast | CSS wizard"
              "Fiona is a frontend engineer specializing in React and modern CSS. She enjoys building performant web applications and sharing tips on component architecture, performance optimization, and creative CSS techniques."
              6543 923 1567)
  ∧ ∃ turn,
      createTurnForRun 0 "run_2025-01-15T10:30:00" 0 DUMMY_AGENTS DUMMY_POSTS
      = Ok turn
      ∧ Turn.agentFeeds turn !! "@fiona.frontend" = None.
Proof.
  split.
  { apply (bool_decide_unpack (NoDup (Agent.handle <$> DUMMY_AGENTS))).
    vm_compute. exact I. }
  split; [reflexivity|].
  eexists. split; vm_compute; reflexivity.
Qed.

(** When the first selected agent is defined the start offset is not
    negative, and with at most five agents the selection then reaches every
    agent of the roster, whatever the sign of the turn number. *)
Lemma selectAgents_reaches_defined (turnNumber : Z) (agents : list Agent.t)
    (a0 : Agent.t) (j : nat) (a : Agent.t) :
  (length agents ≤ 5)%nat →
  selectAgents turnNumber agents !! 0%nat = Some (Some a0) →
  agents !! j = Some a →
  ∃ i : nat, selectAgents turnNumber agents !! i = Some (Some a).
Proof.
  intros Hfive H0 Ha.
  pose proof (lookup_lt_Some _ _ _ Ha) as Hj.
  apply selectAgents_lookup_Some in H0 as (_ & Hj0 & _).
  set (len := Z.of_nat (length agents)) in *.
  assert (0 < len) as Hlen by lia.
  pose proof (rem_abs_range turnNumber len Hlen) as Hr.
  set (r := Z.rem turnNumber len) in *.
  change (Z.of_nat 0) with 0 in Hj0. rewrite Z.add_0_r in Hj0.
  assert (0 ≤ r) as Hr0.
  { destruct (decide (0 ≤ r)) as [|Hneg]; [assumption|].
    rewrite rem_small_neg in Hj0 by lia. lia. }
  set (i := (Z.of_nat j - r) `mod` len).
  pose proof (Z.mod_pos_bound (Z.of_nat j - r) len Hlen) as Hi. fold i in Hi.
  exists (Z.to_nat i). unfold selectAgents. rewrite list_lookup_fmap.
  assert (seqZ 0 (Z.min (Z.of_nat (length agents)) 5) !! Z.to_nat i = Some i) as ->.
  { apply lookup_seqZ. fold len. lia. }
  simpl. fold len. case_decide; [lia|]. simpl Js.add. rewrite rem_Some by lia.
  fold r.
  assert (Z.rem (r + i) len = Z.of_nat j) as ->.
  { rewrite Z.rem_mod_nonneg by lia. unfold i.
    rewrite Z.add_mod_idemp_r by lia.
    replace (r + (Z.of_nat j - r)) with (Z.of_nat j) by lia.
    apply Z.mod_small. lia. }
  rewrite index_in_range by (fold len; lia).
  by rewrite Nat2Z.id, Ha.
Qed.

(** C3, amended. In every turn the call returns for a roster of at most
    five agents, every agent of the roster has a feed under its handle. *)
Theorem every_agent_of_small_roster_gets_feed (Date_now : Z) (runId : string)
    (turnNumber : Z) (agents : list Agent.t) (allPosts : list Post.t)
    (turn : Turn.t) (a : Agent.t) :
  (length agents ≤ 5)%nat →
  createTurnForRun Date_now runId turnNumber agents allPosts = Ok turn →
  a ∈ agents →
  ∃ f, Turn.agentFeeds turn !! Agent.handle a = Some f
       ∧ Feed.agentHandle f = Agent.handle a.
Proof.
  intros Hfive Hturn Ha.
  apply list_elem_of_lookup in Ha as [j Hj].
  pose proof (lookup_lt_Some _ _ _ Hj) as Hlt.
  destruct (lookup_lt_is_Some_2 (selectAgents turnNumber agents) 0%nat) as [o Ho].
  { rewrite selectAgents_length. lia. }
  destruct (createTurnForRun_selected_defined _ _ _ _ _ _ _ _ Hturn Ho) as [a0 ->].
  destruct (selectAgents_reaches_defined turnNumber agents a0 j a Hfive Ho Hj)
    as [i Hi].
  exact (createTurnForRun_feed_dom _ _ _ _ _ _ _ _ Hturn Hi).
Qed.

(** The theorem at work on a roster of four, in turn 2 and in turn -4, a
    negative multiple of the size of the roster, for which the call returns
    too. *)
Lemma every_agent_of_small_roster_gets_feed_witness :
  (∃ turn,
     createTurnForRun 0 "run_2025-01-15T14:45:00" 2 (slice0 4 DUMMY_AGENTS)
       DUMMY_POSTS = Ok turn
     ∧ ∀ a, a ∈ slice0 4 DUMMY_AGENTS →
         ∃ f, Turn.agentFeeds turn !! Agent.handle a = Some f
              ∧ Feed.agentHandle f = Agent.handle a)
  ∧ (∃ turn,
       createTurnForRun 0 "run_2025-01-15T14:45:00" (-4) (slice0 4 DUMMY_AGENTS)
         DUMMY_POSTS = Ok turn
       ∧ ∀ a, a ∈ slice0 4 DUMMY_AGENTS →
           ∃ f, Turn.agentFeeds turn !! Agent.handle a = Some f
                ∧ Feed.agentHandle f = Agent.handle a).
Proof.
  split.
  - assert (∃ turn,
              createTurnForRun 0 "run_2025-01-15T14:45:00" 2 (slice0 4 DUMMY_AGENTS)
                DUMMY_POSTS = Ok turn) as [turn Hturn].
    { eexists. vm_compute. reflexivity. }
    exists turn. split; [exact Hturn|]. intros a Ha.
    apply (every_agent_of_small_roster_gets_feed 0 "run_2025-01-15T14:45:00" 2
             (slice0 4 DUMMY_AGENTS) DUMMY_POSTS turn a);
      [simpl; lia|exact Hturn|exact Ha].
  - assert (∃ turn,
              createTurnForRun 0 "run_2025-01-15T14:45:00" (-4)
                (slice0 4 DUMMY_AGENTS) DUMMY_POSTS = Ok turn) as [turn Hturn].
    { eexists. vm_compute. reflexivity. }
    exists turn. split; [exact Hturn|]. intros a Ha.
    apply (every_agent_of_small_roster_gets_feed 0 "run_2025-01-15T14:45:00" (-4)
             (slice0 4 DUMMY_AGENTS) DUMMY_POSTS turn a);
      [simpl; lia|exact Hturn|exact Ha].
Defined.

(** ** Follow actions *)

Section follows.

Variables (Date_now : Z) (runId : string) (turnNumber : Z)
  (agents : list Agent.t) (allPosts : list Post.t).

Local Abbreviation sel := (selectAgents turnNumber agents).

Lemma likeActions_no_follow (h : string) (idx : Z) (postUris : list string)
    (likes : list AgentAction.t) (a : AgentAction.t) :
  likeActions Date_now runId turnNumber h idx postUris = Ok likes →
  a ∈ likes →
  AgentAction.type a = like.
Proof.
  intros [->|(_ & _ & _ & ->)]%likeActions_Ok_inv.
  - intros []%elem_of_nil.
  - intros ->%list_elem_of_singleton. reflexivity.
Qed.

Lemma likeActions_filter (h : string) (idx : Z) (postUris : list string)
    (likes : list AgentAction.t) :
  likeActions Date_now runId turnNumber h idx postUris = Ok likes →
  filter isFollow likes = [].
Proof. by intros [->|(_ & _ & _ & ->)]%likeActions_Ok_inv. Qed.

(** What [followActions] returns: nothing, or the one follow of the second
    selected agent, and the latter at position 0 of a turn whose number is a
    multiple of 3 only. *)
Lemma followActions_inv (selectedAgents : list (option Agent.t)) (h : string)
    (idx : Z) (follows : list AgentAction.t) :
  followActions Date_now runId turnNumber selectedAgents h idx = Ok follows →
  follows = []
  ∨ (Z.rem turnNumber 3 = 0 ∧ idx = 0
     ∧ ∃ target a,
         selectedAgents !! 1%nat = Some (Some target)
         ∧ follows = [a]
         ∧ AgentAction.agentHandle a = h
         ∧ AgentAction.userId a = Some (Agent.handle target)
         ∧ AgentAction.type a = follow).
Proof.
  unfold followActions. case_decide as Hc; [|intros [= <-]; by left].
  destruct Hc as (H3 & H0 & _).
  destruct (selectedAgents !! 1%nat) as [[target|]|] eqn:H1; try discriminate.
  destruct (Js.toISOString _) as [v|e]; [|discriminate]. simpl.
  intros [= <-]. right. repeat split; try assumption.
  eexists target, _. repeat split; reflexivity.
Qed.

(** A follow found in a returned turn is the follow of the second selected
    agent by the first. *)
Lemma follow_action_inv (turn : Turn.t) (h : string)
    (acts : list AgentAction.t) (a : AgentAction.t) :
  createTurnForRun Date_now runId turnNumber agents allPosts = Ok turn →
  Turn.agentActions turn !! h = Some acts →
  a ∈ acts →
  AgentAction.type a = follow →
  Z.rem turnNumber 3 = 0
  ∧ ∃ a0 a1,
      sel !! 0%nat = Some (Some a0) ∧ sel !! 1%nat = Some (Some a1)
      ∧ h = Agent.handle a0
      ∧ AgentAction.agentHandle a = Agent.handle a0
      ∧ AgentAction.userId a = Some (Agent.handle a1).
Proof.
  intros Hrun Hacts Ha Hty.
  destruct (createTurnForRun_actions_inv _ _ _ _ _ _ _ _ Hrun Hacts)
    as (i & a0 & likes & follows & Hi & -> & Hl & Hf & ->).
  apply elem_of_app in Ha as [Ha|Ha].
  { apply (likeActions_no_follow _ _ _ _ _ Hl) in Ha. congruence. }
  apply followActions_inv in Hf
    as [->|(H3 & H0 & a1 & b & H1 & -> & Hb1 & Hb2 & _)].
  { by apply elem_of_nil in Ha. }
  apply list_elem_of_singleton in Ha as ->.
  assert (i = 0%nat) as -> by lia.
  split; [assumption|]. by exists a0, a1.
Qed.

Lemma turnFollows_insert (m : gmap string (list AgentAction.t)) (h : string)
    (acts : list AgentAction.t) :
  (length (map_to_list (<[h := acts]> m) ≫= (fun kv => filter isFollow kv.2))
   ≤ length (map_to_list m ≫= (fun kv => filter isFollow kv.2))
     + length (filter isFollow acts))%nat.
Proof.
  rewrite <- insert_delete_eq.
  rewrite (map_to_list_insert (delete h m) h acts) by apply lookup_delete_eq.
  rewrite bind_cons, length_app. simpl.
  destruct (m !! h) as [v|] eqn:Hm.
  - rewrite <- (map_to_list_delete m h v Hm).
    rewrite bind_cons, length_app. lia.
  - rewrite delete_id by assumption. lia.
Qed.

Lemma turnFollows_length (turn : Turn.t) :
  createTurnForRun Date_now runId turnNumber agents allPosts = Ok turn →
  (length (turnFollows turn) ≤ 1)%nat.
Proof.
  intros Hrun. apply createTurnForRun_Ok_inv in Hrun as [_ Hrun].
  unfold turnFollows.
  enough ((fun n (st : gmap string Feed.t * gmap string (list AgentAction.t)) =>
             (length (map_to_list st.2 ≫= (fun kv => filter isFollow kv.2))
              ≤ if n is O then 0 else 1)%nat)
            (length sel) (Turn.agentFeeds turn, Turn.agentActions turn)) as Hinv.
  { simpl in Hinv. destruct (length sel); lia. }
  apply (forEach_invariant (agentStep Date_now runId turnNumber allPosts sel)
           (fun n st =>
              (length (map_to_list st.2 ≫= (fun kv => filter isFollow kv.2))
               ≤ if n is O then 0 else 1)%nat)
           sel 0 (∅, ∅)); [| |exact Hrun].
  - simpl. by rewrite map_to_list_empty.
  - intros i x u u' IH Hx Hstep.
    apply agentStep_Ok_inv in Hstep as (a & feed & likes & follows & -> & _ & Hl & Hf & ->).
    simpl.
    etrans; [apply turnFollows_insert|].
    rewrite filter_app, (likeActions_filter _ _ _ _ Hl). simpl.
    apply followActions_inv in Hf
      as [->|(_ & H0 & a1 & b & _ & -> & _)].
    + simpl. destruct i; lia.
    + assert (i = 0%nat) as -> by lia.
      pose proof (length_filter isFollow [b]) as Hb. simpl in Hb. lia.
Qed.

End follows.

(** C4, as stated, fails: over turns 0 to 3 of the first dummy run @alice
    is the first selected agent in turns 0 and 3 and follows @bob in both;
    the second follow is recorded like the first. *)
Lemma alice_follows_bob_twice :
  ∃ turns,
    runTurns 0 "run_2025-01-15T10:30:00" (slice0 3 DUMMY_AGENTS) DUMMY_POSTS 4
    = Ok turns
    ∧ length (followsOf "@alice.bsky.social" "@bob.tech" (runFollows turns))
      = 2%nat.
Proof. eexists. split; vm_compute; reflexivity. Qed.

(** C4, amended. One turn records at most one follow: that of the second
    selected agent by the first, and only when the turn number is a multiple
    of 3. *)
Theorem at_most_one_follow_per_turn (Date_now : Z) (runId : string)
    (turnNumber : Z) (agents : list Agent.t) (allPosts : list Post.t)
    (turn : Turn.t) :
  createTurnForRun Date_now runId turnNumber agents allPosts = Ok turn →
  (length (turnFollows turn) ≤ 1)%nat
  ∧ ∀ a, a ∈ turnFollows turn →
      Z.rem turnNumber 3 = 0
      ∧ ∃ a0 a1,
          selectAgents turnNumber agents !! 0%nat = Some (Some a0)
          ∧ selectAgents turnNumber agents !! 1%nat = Some (Some a1)
          ∧ AgentAction.agentHandle a = Agent.handle a0
          ∧ AgentAction.userId a = Some (Agent.handle a1).
Proof.
  intros Hrun. split; [by eapply turnFollows_length|].
  intros a Ha. unfold turnFollows in Ha.
  apply list_elem_of_bind in Ha as ([h acts] & Ha & Hacts).
  apply elem_of_map_to_list in Hacts.
  apply list_elem_of_filter in Ha as [Hfollow Ha]. simpl in Ha.
  apply bool_decide_unpack in Hfollow.
  destruct (follow_action_inv _ _ _ _ _ _ _ _ _ Hrun Hacts Ha Hfollow)
    as (H3 & a0 & a1 & H0 & H1 & _ & Hactor & Htarget).
  split; [assumption|]. by exists a0, a1.
Qed.

Lemma at_most_one_follow_per_turn_witness :
  ∃ turn,
    createTurnForRun 0 "run_2025-01-15T10:30:00" 3 (slice0 3 DUMMY_AGENTS)
      DUMMY_POSTS = Ok turn
    ∧ length (turnFollows turn) = 1%nat
    ∧ ∀ a, a ∈ turnFollows turn →
        AgentAction.agentHandle a = "@alice.bsky.social"
        ∧ AgentAction.userId a = Some "@bob.tech".
Proof.
  assert (∃ turn,
            createTurnForRun 0 "run_2025-01-15T10:30:00" 3 (slice0 3 DUMMY_AGENTS)
              DUMMY_POSTS = Ok turn
            ∧ length (turnFollows turn) = 1%nat) as (turn & Hturn & Hone).
  { eexists. split; vm_compute; reflexivity. }
  exists turn. split; [assumption|]. split; [assumption|].
  intros a Ha.
  destruct (at_most_one_follow_per_turn 0 "run_2025-01-15T10:30:00" 3
              (slice0 3 DUMMY_AGENTS) DUMMY_POSTS turn Hturn) as [_ Hwho].
  destruct (Hwho a Ha) as (_ & a0 & a1 & H0 & H1 & -> & ->).
  vm_compute in H0, H1. by injection H0 as <-; injection H1 as <-.
Defined.

(** C8. A follow action of a returned turn never targets its own actor,
    when the handles of the roster are pairwise different. *)
Theorem no_self_follow (Date_now : Z) (runId : string) (turnNumber : Z)
    (agents : list Agent.t) (allPosts : list Post.t)
    (turn : Turn.t) (h : string) (acts : list AgentAction.t)
    (a : AgentAction.t) :
  NoDup (Agent.handle <$> agents) →
  createTurnForRun Date_now runId turnNumber agents allPosts = Ok turn →
  Turn.agentActions turn !! h = Some acts →
  a ∈ acts →
  AgentAction.type a = follow →
  AgentAction.userId a ≠ Some (AgentAction.agentHandle a).
Proof.
  intros Hnd Hrun Hacts Ha Hfollow.
  destruct (follow_action_inv _ _ _ _ _ _ _ _ _ Hrun Hacts Ha Hfollow)
    as (_ & a0 & a1 & H0 & H1 & _ & -> & ->).
  intros [= Heq].
  by apply (selectAgents_first_two turnNumber agents a0 a1 Hnd H0 H1).
Qed.

Lemma no_self_follow_witness :
  ∃ turn acts a,
    createTurnForRun 0 "run_2025-01-15T14:45:00" 0 (slice0 4 DUMMY_AGENTS)
      DUMMY_POSTS = Ok turn
    ∧ Turn.agentActions turn !! "@alice.bsky.social" = Some acts
    ∧ acts !! 1%nat = Some a
    ∧ AgentAction.type a = follow
    ∧ AgentAction.userId a = Some "@bob.tech"
    ∧ AgentAction.userId a ≠ Some (AgentAction.agentHandle a).
Proof.
  assert (∃ turn acts a,
            createTurnForRun 0 "run_2025-01-15T14:45:00" 0 (slice0 4 DUMMY_AGENTS)
              DUMMY_POSTS = Ok turn
            ∧ Turn.agentActions turn !! "@alice.bsky.social" = Some acts
            ∧ acts !! 1%nat = Some a
            ∧ AgentAction.type a = follow
            ∧ AgentAction.userId a = Some "@bob.tech")
    as (turn & acts & a & Hturn & Hacts & Ha & Hty & Htarget).
  { eexists _, _, _. split; [vm_compute; reflexivity|].
    split; [vm_compute; reflexivity|]. repeat split; vm_compute; reflexivity. }
  exists turn, acts, a. repeat split; try assumption.
  apply (no_self_follow 0 "run_2025-01-15T14:45:00" 0 (slice0 4 DUMMY_AGENTS)
           DUMMY_POSTS turn "@alice.bsky.social" acts a).
  - apply (bool_decide_unpack (NoDup (Agent.handle <$> slice0 4 DUMMY_AGENTS))).
    vm_compute. exact I.
  - exact Hturn.
  - exact Hacts.
  - by eapply list_elem_of_lookup_2.
  - exact Hty.
Defined.

(** ** Run status *)

Lemma getCompletedTurnsCount_size (DUMMY_TURNS : gmap string (gmap Z Turn.t))
    (st : Page.State) (runId : string) :
  runId ≠ EmptyString →
  Page.getCompletedTurnsCount DUMMY_TURNS st (Some runId)
  = Z.of_nat (size (recordedTurns DUMMY_TURNS (Page.newRunTurns st) runId)).
Proof.
  intros Hne. unfold Page.getCompletedTurnsCount, Page.getAvailableTurns.
  destruct runId as [|c s]; [done|]. fold (recordedTurns DUMMY_TURNS (Page.newRunTurns st) (String c s)).
  rewrite (Permutation_length (merge_sort_Permutation Z.le _)).
  by rewrite length_fmap, length_map_to_list.
Qed.

Lemma size_turns_upto (turns : gmap Z Turn.t) (k : Z) :
  0 ≤ k →
  (∀ n, is_Some (turns !! n) ↔ 0 ≤ n < k) →
  Z.of_nat (size turns) = k.
Proof.
  intros Hk Hdom. rewrite <- (size_dom (D := gset Z)).
  assert (dom turns = list_to_set (seqZ 0 k)) as ->.
  { apply set_eq. intros n.
    rewrite elem_of_dom, elem_of_list_to_set, elem_of_seqZ, Hdom. lia. }
  rewrite size_list_to_set by apply NoDup_seqZ. rewrite length_seqZ. lia.
Qed.

(** C6. The status of a run is ['completed'] exactly when at least
    [totalTurns] turns are recorded for it, and ['running'] for every smaller
    count; with turns [0 .. k-1] recorded that is: exactly when
    [totalTurns ≤ k], so first when turn [totalTurns - 1] is recorded. *)
Theorem getRunStatus_completed_iff (DUMMY_TURNS : gmap string (gmap Z Turn.t))
    (st : Page.State) (run : Run.t) :
  Run.runId run ≠ EmptyString →
  let recorded := recordedTurns DUMMY_TURNS (Page.newRunTurns st) (Run.runId run) in
  (Page.getRunStatus DUMMY_TURNS st (Some run) = completed
   ↔ Run.totalTurns run ≤ Z.of_nat (size recorded))
  ∧ (Page.getRunStatus DUMMY_TURNS st (Some run) = running
     ↔ Z.of_nat (size recorded) < Run.totalTurns run)
  ∧ (∀ k, 0 ≤ k → (∀ n, is_Some (recorded !! n) ↔ 0 ≤ n < k) →
       (Page.getRunStatus DUMMY_TURNS st (Some run) = completed
        ↔ Run.totalTurns run ≤ k)).
Proof.
  intros Hne recorded.
  assert (Page.getRunStatus DUMMY_TURNS st (Some run) = completed
          ↔ Run.totalTurns run ≤ Z.of_nat (size recorded)) as Hc.
  { unfold Page.getRunStatus. rewrite getCompletedTurnsCount_size by assumption.
    fold recorded. case_decide; split; (done || lia). }
  split; [exact Hc|]. split.
  - unfold Page.getRunStatus. rewrite getCompletedTurnsCount_size by assumption.
    fold recorded. case_decide; split; (done || lia).
  - intros k Hk Hdom. by rewrite Hc, (size_turns_upto recorded k Hk Hdom).
Qed.

(** The theorem at work: a run of two turns with turns 0 and 1 recorded is
    completed, one of three turns with the same record is running. *)
Lemma getRunStatus_completed_iff_witness :
  let store : gmap string (gmap Z Turn.t) :=
    {[ "run_a" := <[0 := Turn.mk 0 ∅ ∅]> {[ 1 := Turn.mk 1 ∅ ∅ ]} ]} in
  let st := Page.mk [] None None ∅ ∅ in
  Page.getRunStatus store st (Some (Run.mk "run_a" "2025-01-15T10:30:00" 2 3 running))
  = completed
  ∧ Page.getRunStatus store st (Some (Run.mk "run_a" "2025-01-15T10:30:00" 3 3 running))
    = running.
Proof.
  intros store st. split.
  - apply (getRunStatus_completed_iff store st
             (Run.mk "run_a" "2025-01-15T10:30:00" 2 3 running)).
    + discriminate.
    + vm_compute. discriminate.
  - apply (getRunStatus_completed_iff store st
             (Run.mk "run_a" "2025-01-15T10:30:00" 3 3 running)).
    + discriminate.
    + vm_compute. reflexivity.
Defined.

(** ** Configuration *)

Lemma clamp_at_least_one (value : Js.number) : 1 ≤ ConfigForm.clamp value.
Proof. unfold ConfigForm.clamp. destruct value; [case_decide|]; lia. Qed.

Lemma DUMMY_RUNS_valid : Forall runValid DUMMY_RUNS.
Proof. unfold DUMMY_RUNS, runValid. repeat constructor; simpl; lia. Qed.

Lemma appValid_render (p : Page.State) (f : option ConfigForm.State) :
  (∀ g, f = Some g → configValid (ConfigForm.handleSubmit g)) →
  (∀ r, r ∈ Page.runs p → runValid r) →
  (∀ id c, Page.runConfigs p !! id = Some c → configValid c) →
  appValid (App.render p f).
Proof.
  intros Hf Hruns Hconfigs. unfold appValid, App.render. simpl.
  split; [|by split].
  intros g. destruct (Page.isStartScreen p); [|discriminate].
  intros [= <-]. destruct f as [g|]; simpl; [by apply Hf|].
  unfold configValid. simpl. lia.
Qed.

Lemma appValid_initial (DUMMY_TURNS : gmap string (gmap Z Turn.t)) :
  appValid (App.initial DUMMY_TURNS).
Proof.
  apply appValid_render; simpl.
  - discriminate.
  - intros r (r0 & -> & Hr0)%list_elem_of_fmap. unfold runValid. simpl.
    pose proof DUMMY_RUNS_valid as Hall. rewrite Forall_forall in Hall.
    exact (Hall r0 Hr0).
  - intros id c. by rewrite lookup_empty.
Qed.

Lemma appValid_step (st : App.State) (e : App.Event) :
  appValid st → appValid (App.step st e).
Proof.
  intros (Hform & Hruns & Hconfigs).
  destruct e as [v|v|nowIso|runId|t|]; unfold App.step;
    destruct (App.form st) as [f|] eqn:Hf;
    try (unfold appValid; rewrite Hf; split; [exact Hform|by split]);
    apply appValid_render; simpl; try assumption; try discriminate.
  - intros g [= <-]. split; simpl; [apply clamp_at_least_one|apply (Hform f eq_refl)].
  - intros g [= <-]. split; simpl; [apply (Hform f eq_refl)|apply clamp_at_least_one].
  - intros r [->|Hr]%elem_of_cons; [|by apply Hruns].
    exact (conj (proj1 (Hform f eq_refl)) (proj2 (Hform f eq_refl))).
  - intros id c. destruct (decide ("run_" +:+ nowIso = id)) as [<-|Hne].
    + rewrite lookup_insert_eq. intros [= <-]. by apply Hform.
    + rewrite lookup_insert_ne by assumption. apply Hconfigs.
Qed.

(** C7. Whatever the user does, the configuration the form submits has one
    agent and one turn or more (a value below one, or one that is not a
    number, is replaced by 1 when it is typed), and so has every run of the
    list and every stored configuration. *)
Theorem no_run_without_agents_or_turns
    (DUMMY_TURNS : gmap string (gmap Z Turn.t)) (events : list App.Event) :
  let st := App.run (App.initial DUMMY_TURNS) events in
  (∀ f, App.form st = Some f →
     1 ≤ RunConfig.numAgents (ConfigForm.handleSubmit f)
     ∧ 1 ≤ RunConfig.numTurns (ConfigForm.handleSubmit f))
  ∧ (∀ r, r ∈ Page.runs (App.page st) →
       1 ≤ Run.totalAgents r ∧ 1 ≤ Run.totalTurns r)
  ∧ (∀ id c, Page.runConfigs (App.page st) !! id = Some c →
       1 ≤ RunConfig.numAgents c ∧ 1 ≤ RunConfig.numTurns c).
Proof.
  simpl. change (appValid (App.run (App.initial DUMMY_TURNS) events)).
  unfold App.run. generalize (appValid_initial DUMMY_TURNS).
  generalize (App.initial DUMMY_TURNS) as st. 
  induction events as [|e events IH]; intros st Hst; simpl; [assumption|].
  apply IH. by apply appValid_step.
Qed.

(** Typing 0 agents and a text that is no number for the turns, then
    submitting, creates a run of one agent and one turn. *)
Lemma no_run_without_agents_or_turns_witness :
  let st := App.run (App.initial ∅)
              [ App.ChangeNumAgents (Some 0); App.ChangeNumTurns None;
                App.Submit "2025-02-01T00:00:00.000Z" ] in
  (Run.totalAgents <$> Page.runs (App.page st)) !! 0%nat = Some 1
  ∧ (Run.totalTurns <$> Page.runs (App.page st)) !! 0%nat = Some 1
  ∧ ∀ r, r ∈ Page.runs (App.page st) →
      1 ≤ Run.totalAgents r ∧ 1 ≤ Run.totalTurns r.
Proof.
  split; [reflexivity|]. split; [reflexivity|].
  exact (proj1 (proj2 (no_run_without_agents_or_turns ∅
           [ App.ChangeNumAgents (Some 0); App.ChangeNumTurns None;
             App.Submit "2025-02-01T00:00:00.000Z" ]))).
Defined.

(** The statuses the page computes for the five dummy runs. *)
Example dummy_run_statuses :
  (turns ← DUMMY_TURNS 0;
   Ok (Run.status <$> Page.runsWithStatus turns (Page.initial turns)))
  = Ok [completed; running; completed; running; running].
Proof. vm_compute. reflexivity. Qed.

(** ** Post lookup *)

Lemma find_by_uri_member (posts : list Post.t) (p : Post.t) :
  NoDup (Post.uri <$> posts) →
  p ∈ posts →
  Js.find (fun q => bool_decide (Post.uri q = Post.uri p)) posts = Some p.
Proof.
  unfold Js.find. induction posts as [|q posts IH]; intros Hnd Hp.
  - by apply elem_of_nil in Hp.
  - rewrite fmap_cons in Hnd. apply NoDup_cons in Hnd as [Hq Hnd]. simpl.
    apply elem_of_cons in Hp as [->|Hp].
    + by rewrite bool_decide_eq_true_2.
    + case_bool_decide as Heq; [|by apply IH].
      exfalso. apply Hq. rewrite Heq. by apply list_elem_of_fmap_2.
Qed.

Lemma find_by_uri_absent (posts : list Post.t) (u : string) :
  u ∉ Post.uri <$> posts →
  Js.find (fun q => bool_decide (Post.uri q = u)) posts = None.
Proof.
  unfold Js.find. induction posts as [|q posts IH]; intros Hu; [reflexivity|].
  rewrite fmap_cons, not_elem_of_cons in Hu. destruct Hu as [Hne Hu]. simpl.
  rewrite bool_decide_eq_false_2 by congruence. by apply IH.
Qed.

(** C9. The URIs of [DUMMY_POSTS] are pairwise different, [getPostByUri]
    gives back every post of the corpus from its URI, and it is [undefined]
    at every other string. *)
Theorem getPostByUri_roundtrip :
  NoDup (Post.uri <$> DUMMY_POSTS)
  ∧ (∀ p, p ∈ DUMMY_POSTS → getPostByUri (Post.uri p) = Some p)
  ∧ (∀ u, u ∉ Post.uri <$> DUMMY_POSTS → getPostByUri u = None).
Proof.
  split; [exact DUMMY_POSTS_uris_NoDup|]. split.
  - intros p Hp. apply find_by_uri_member; [exact DUMMY_POSTS_uris_NoDup|exact Hp].
  - intros u Hu. by apply find_by_uri_absent.
Qed.

Lemma getPostByUri_roundtrip_witness :
  (Post.authorHandle <$> getPostByUri "at://did:plc:example9/post9")
  = Some "@alice.bsky.social"
  ∧ (∀ p, DUMMY_POSTS !! 8%nat = Some p →
       getPostByUri "at://did:plc:example9/post9" = Some p)
  ∧ getPostByUri "at://did:plc:example11/post11" = None.
Proof.
  destruct getPostByUri_roundtrip as (_ & Hmember & Habsent).
  split; [reflexivity|]. split.
  - intros p Hp. injection Hp as <-.
    apply (Hmember (Post.mk "at://did:plc:example9/post9" _ _ _ _ _ _ _ _ _)).
    do 8 apply list_elem_of_further. apply list_elem_of_here.
  - apply Habsent.
    apply (bool_decide_unpack
             ("at://did:plc:example11/post11" ∉ Post.uri <$> DUMMY_POSTS)).
    vm_compute. exact I.
Defined.

(** ** Creating a run *)

(** C10. [handleConfigSubmit] puts exactly one new run in front of the list
    of runs, with the turns and agents of the configuration and the status
    ['running'], and leaves the runs that were there as they were, in their
    order. *)
Theorem handleConfigSubmit_prepends_run (nowIso : string)
    (config : RunConfig.t) (st : Page.State) :
  ∃ newRun,
    Page.runs (Page.handleConfigSubmit nowIso config st) = newRun :: Page.runs st
    ∧ Run.totalTurns newRun = RunConfig.numTurns config
    ∧ Run.totalAgents newRun = RunConfig.numAgents config
    ∧ Run.status newRun = running.
Proof. eexists. repeat split; reflexivity. Qed.

(** * Further properties of the code *)

(** ** The turns the page lists *)

Lemma getAvailableTurns_unfold (DUMMY_TURNS : gmap string (gmap Z Turn.t))
    (st : Page.State) (runId : string) :
  runId ≠ EmptyString →
  Page.getAvailableTurns DUMMY_TURNS st (Some runId)
  = merge_sort Z.le
      (map_to_list (recordedTurns DUMMY_TURNS (Page.newRunTurns st) runId)).*1.
Proof. intros Hne. unfold Page.getAvailableTurns, recordedTurns. by destruct runId. Qed.

Lemma elem_of_getAvailableTurns (DUMMY_TURNS : gmap string (gmap Z Turn.t))
    (st : Page.State) (runId : string) (n : Z) :
  runId ≠ EmptyString →
  n ∈ Page.getAvailableTurns DUMMY_TURNS st (Some runId)
  ↔ is_Some (recordedTurns DUMMY_TURNS (Page.newRunTurns st) runId !! n).
Proof.
  intros Hne. rewrite getAvailableTurns_unfold by assumption.
  rewrite merge_sort_Permutation, list_elem_of_fmap. split.
  - intros ([k t] & -> & Hkt). apply elem_of_map_to_list in Hkt. by exists t.
  - intros [t Ht]. exists (n, t). split; [reflexivity|].
    by apply elem_of_map_to_list.
Qed.

(** X1. The turn numbers [getAvailableTurns] lists for a run are exactly the
    keys of the run's record of turns, each once, in ascending order; for
    [null] and for the empty run id the list is empty. *)
Theorem getAvailableTurns_sorted_keys
    (DUMMY_TURNS : gmap string (gmap Z Turn.t)) (st : Page.State)
    (runId : string) :
  runId ≠ EmptyString →
  let turns := Page.getAvailableTurns DUMMY_TURNS st (Some runId) in
  StronglySorted Z.lt turns
  ∧ (∀ n, n ∈ turns
          ↔ is_Some (recordedTurns DUMMY_TURNS (Page.newRunTurns st) runId !! n))
  ∧ Page.getAvailableTurns DUMMY_TURNS st None = []
  ∧ Page.getAvailableTurns DUMMY_TURNS st (Some EmptyString) = [].
Proof.
  intros Hne turns.
  split; [|split; [intros n; by apply elem_of_getAvailableTurns|by split]].
  assert (NoDup turns) as Hnd.
  { subst turns. rewrite getAvailableTurns_unfold by assumption.
    rewrite merge_sort_Permutation. apply NoDup_fst_map_to_list. }
  assert (StronglySorted Z.le turns) as Hle.
  { subst turns. rewrite getAvailableTurns_unfold by assumption.
    apply StronglySorted_merge_sort; [apply _|]. intros x y. lia. }
  induction Hle as [|x l Hl IH Hx]; [constructor|].
  apply NoDup_cons in Hnd as [Hxl Hnd].
  constructor; [by apply IH|].
  rewrite Forall_forall in Hx |- *. intros y Hy.
  pose proof (Hx y Hy). assert (x ≠ y) by (intros ->; contradiction). lia.
Qed.

Lemma getAvailableTurns_sorted_keys_witness :
  let store : gmap string (gmap Z Turn.t) :=
    {[ "run_a" := <[2 := Turn.mk 2 ∅ ∅]> (<[0 := Turn.mk 0 ∅ ∅]>
                     {[ 1 := Turn.mk 1 ∅ ∅ ]}) ]} in
  let st := Page.mk [] None None ∅ ∅ in
  Page.getAvailableTurns store st (Some "run_a") = [0; 1; 2]
  ∧ StronglySorted Z.lt (Page.getAvailableTurns store st (Some "run_a")).
Proof.
  intros store st. split; [vm_compute; reflexivity|].
  apply (getAvailableTurns_sorted_keys store st "run_a"). discriminate.
Defined.

(** X2. A turn that [getAvailableTurns] lists for the selected run has data:
    when it is selected, [currentTurn] is the turn stored under that number
    in the run's record. *)
Theorem available_turn_has_data (DUMMY_TURNS : gmap string (gmap Z Turn.t))
    (st : Page.State) (runId : string) (n : Z) :
  Page.selectedRunId st = Some runId →
  Page.selectedTurn st = Some (Page.turn n) →
  n ∈ Page.getAvailableTurns DUMMY_TURNS st (Some runId) →
  is_Some (Home.currentTurn DUMMY_TURNS st)
  ∧ Home.currentTurn DUMMY_TURNS st
    = recordedTurns DUMMY_TURNS (Page.newRunTurns st) runId !! n.
Proof.
  intros Hid Hturn Hn.
  assert (runId ≠ EmptyString) as Hne.
  { intros ->. simpl in Hn. by apply elem_of_nil in Hn. }
  apply elem_of_getAvailableTurns in Hn as [t Ht]; [|assumption].
  assert (Home.currentTurn DUMMY_TURNS st
          = recordedTurns DUMMY_TURNS (Page.newRunTurns st) runId !! n) as Heq.
  { unfold Home.currentTurn. rewrite Hid, Hturn.
    destruct runId as [|c s]; [done|].
    unfold recordedTurns in Ht |- *.
    destruct (Page.newRunTurns st !! String c s) as [ts|]; simpl.
    - by rewrite Ht.
    - by destruct (DUMMY_TURNS !! String c s). }
  split; [|exact Heq]. rewrite Heq, Ht. by eexists.
Qed.

Lemma available_turn_has_data_witness :
  let store : gmap string (gmap Z Turn.t) :=
    {[ "run_a" := <[0 := Turn.mk 0 ∅ ∅]> {[ 1 := Turn.mk 1 ∅ ∅ ]} ]} in
  let st := Page.mk [] (Some "run_a") (Some (Page.turn 1)) ∅ ∅ in
  Home.currentTurn store st = Some (Turn.mk 1 ∅ ∅)
  ∧ is_Some (Home.currentTurn store st).
Proof.
  intros store st. split; [vm_compute; reflexivity|].
  apply (available_turn_has_data store st "run_a" 1); try reflexivity.
  apply (bool_decide_unpack (1 ∈ Page.getAvailableTurns store st (Some "run_a"))).
  vm_compute. exact I.
Defined.

(** ** Lookups by key *)

Section find_by_key.

Context {A K : Type} `{EqDecision K} (key : A → K).

Lemma find_key_Some (k : K) (xs : list A) (x : A) :
  Js.find (fun y => bool_decide (key y = k)) xs = Some x →
  x ∈ xs ∧ key x = k.
Proof.
  unfold Js.find. induction xs as [|y xs IH]; [discriminate|]. simpl.
  case_bool_decide as Hy.
  - intros [= <-]. split; [apply list_elem_of_here|exact Hy].
  - intros Hx. destruct (IH Hx) as [Hin Hk].
    split; [by apply list_elem_of_further|exact Hk].
Qed.

Lemma find_key_None (k : K) (xs : list A) :
  Js.find (fun y => bool_decide (key y = k)) xs = None ↔ k ∉ key <$> xs.
Proof.
  unfold Js.find. induction xs as [|y xs IH]; csimpl.
  - split; [intros _; apply not_elem_of_nil|done].
  - rewrite not_elem_of_cons. case_bool_decide as Hy.
    + split; [discriminate|]. intros [Hne _]. congruence.
    + rewrite IH. split; [intros Hk; split; [congruence|exact Hk]|by intros [_ Hk]].
Qed.

Lemma find_key_member (xs : list A) (x : A) :
  NoDup (key <$> xs) → x ∈ xs →
  Js.find (fun y => bool_decide (key y = key x)) xs = Some x.
Proof.
  unfold Js.find. induction xs as [|y xs IH]; intros Hnd Hx.
  - by apply elem_of_nil in Hx.
  - rewrite fmap_cons in Hnd. apply NoDup_cons in Hnd as [Hy Hnd]. simpl.
    apply elem_of_cons in Hx as [->|Hx].
    + by rewrite bool_decide_eq_true_2.
    + case_bool_decide as Heq; [|by apply IH].
      exfalso. apply Hy. rewrite Heq. by apply list_elem_of_fmap_2.
Qed.

End find_by_key.

(** X3. The handles of [DUMMY_AGENTS] are pairwise different,
    [getAgentByHandle] gives back every agent of the list from its handle, and
    it is [undefined] at every other string. *)
Theorem getAgentByHandle_roundtrip :
  NoDup (Agent.handle <$> DUMMY_AGENTS)
  ∧ (∀ a, a ∈ DUMMY_AGENTS → getAgentByHandle (Agent.handle a) = Some a)
  ∧ (∀ h, h ∉ Agent.handle <$> DUMMY_AGENTS → getAgentByHandle h = None).
Proof.
  assert (NoDup (Agent.handle <$> DUMMY_AGENTS)) as Hnd.
  { apply (bool_decide_unpack (NoDup (Agent.handle <$> DUMMY_AGENTS))).
    vm_compute. exact I. }
  split; [exact Hnd|]. split.
  - intros a Ha. by apply (find_key_member Agent.handle).
  - intros h Hh. by apply (find_key_None Agent.handle).
Qed.

(** ** The selected run *)

(** X4. [selectedRun] is a run of the list that bears the selected id, the
    first one; it is [null] exactly when nothing is selected or no run of the
    list bears the selected id; and when the ids of the list are pairwise
    different, selecting the id of a run of the list gives that run. *)
Theorem selectedRun_sound (st : Page.State) :
  (∀ r, Home.selectedRun st = Some r →
        r ∈ Page.runs st ∧ Page.selectedRunId st = Some (Run.runId r))
  ∧ (Home.selectedRun st = None
     ↔ Page.selectedRunId st = None
       ∨ ∃ id, Page.selectedRunId st = Some id
               ∧ id ∉ Run.runId <$> Page.runs st)
  ∧ (∀ r, NoDup (Run.runId <$> Page.runs st) → r ∈ Page.runs st →
          Page.selectedRunId st = Some (Run.runId r) →
          Home.selectedRun st = Some r).
Proof.
  unfold Home.selectedRun. destruct (Page.selectedRunId st) as [id|].
  - split; [|split].
    + intros r Hr. apply (find_key_Some Run.runId) in Hr as [Hin <-]. by split.
    + rewrite (find_key_None Run.runId). split.
      * intros Hid. right. by exists id.
      * intros [[=]|(id' & [= <-] & Hid)]. exact Hid.
    + intros r Hnd Hr [= ->]. by apply (find_key_member Run.runId).
  - split; [discriminate|]. split; [|discriminate].
    split; [by left|reflexivity].
Qed.

(** X5. After [handleConfigSubmit] the selected run is the new run, the
    first of the list, whatever runs were there; its configuration is the
    one submitted; the page leaves the start screen for the summary, and
    there is no current turn. *)
Theorem submit_selects_new_run (DUMMY_TURNS : gmap string (gmap Z Turn.t))
    (nowIso : string) (config : RunConfig.t) (st : Page.State) :
  let st' := Page.handleConfigSubmit nowIso config st in
  Home.selectedRun st' = head (Page.runs st')
  ∧ (Run.runId <$> Home.selectedRun st') = Some ("run_" +:+ nowIso)
  ∧ Home.getRunConfig st' (Home.selectedRun st') = Some config
  ∧ Page.isStartScreen st' = false
  ∧ Page.selectedTurn st' = Some Page.summary
  ∧ Home.currentTurn DUMMY_TURNS st' = None.
Proof.
  simpl. unfold Home.selectedRun, Js.find. simpl.
  rewrite bool_decide_eq_true_2 by reflexivity. simpl.
  rewrite lookup_insert_eq. repeat split.
Qed.

(** ** The agents of a run *)

(** X6. [getRunAgents] always gives a prefix of [DUMMY_AGENTS]: all eight for
    [null], the first [min(totalAgents, 8)] for a run whose [totalAgents] is
    not negative, and, [slice] counting a negative end from the end of the
    array, all but the last [-totalAgents] for a run whose [totalAgents] is
    negative. *)
Theorem getRunAgents_prefix (run : option Run.t) :
  Home.getRunAgents run `prefix_of` DUMMY_AGENTS
  ∧ (run = None → Home.getRunAgents run = DUMMY_AGENTS)
  ∧ (∀ r, run = Some r → 0 ≤ Run.totalAgents r →
          Z.of_nat (length (Home.getRunAgents run)) = Z.min (Run.totalAgents r) 8)
  ∧ (∀ r, run = Some r → Run.totalAgents r < 0 →
          Z.of_nat (length (Home.getRunAgents run))
          = Z.max (8 + Run.totalAgents r) 0).
Proof.
  split; [|split; [by intros ->|split]].
  - destruct run as [r|]; simpl; [|reflexivity].
    unfold sliceTo. apply prefix_take.
  - intros r -> Hr. unfold Home.getRunAgents, sliceTo.
    rewrite length_take. change (Z.of_nat (length DUMMY_AGENTS)) with 8.
    change (length DUMMY_AGENTS) with 8%nat.
    case_decide; lia.
  - intros r -> Hr. unfold Home.getRunAgents, sliceTo.
    rewrite length_take. change (Z.of_nat (length DUMMY_AGENTS)) with 8.
    change (length DUMMY_AGENTS) with 8%nat.
    case_decide; lia.
Qed.

Lemma getRunAgents_prefix_witness :
  Agent.handle <$> Home.getRunAgents (Some (Run.mk "run_a" "2025-01-15T10:30:00" 10 3 running))
  = ["@alice.bsky.social"; "@bob.tech"; "@charlie.dev"]
  ∧ Z.of_nat (length (Home.getRunAgents
                        (Some (Run.mk "run_a" "2025-01-15T10:30:00" 10 (-3) running))))
    = 5.
Proof.
  split; [reflexivity|].
  exact (proj2 (proj2 (proj2 (getRunAgents_prefix
           (Some (Run.mk "run_a" "2025-01-15T10:30:00" 10 (-3) running)))))
           _ eq_refl ltac:(simpl; lia)).
Defined.

(** ** More on one call of the generator *)

Lemma filter_none {A : Type} (P : A → Prop) `{∀ x, Decision (P x)} (l : list A) :
  (∀ x, x ∈ l → ¬ P x) → filter P l = [].
Proof.
  induction l as [|x l IH]; intros Hl; [reflexivity|].
  rewrite filter_cons_False by (apply Hl, list_elem_of_here).
  apply IH. intros y Hy. by apply Hl, list_elem_of_further.
Qed.

Lemma filterBoolean_elem (os : list (option string)) (u : string) :
  u ∈ Js.filterBoolean os → u ≠ EmptyString ∧ Some u ∈ os.
Proof.
  unfold Js.filterBoolean. rewrite list_elem_of_omap.
  intros (o & Ho & Hu). destruct o as [[|c s]|]; simpl in Hu; try discriminate.
  injection Hu as <-. by split.
Qed.

Lemma feedPostUris_elem (turnNumber : Z) (allPosts : list Post.t)
    (nsel idx : Z) (u : string) :
  u ∈ feedPostUris turnNumber allPosts nsel idx →
  u ≠ EmptyString ∧ u ∈ Post.uri <$> allPosts.
Proof.
  unfold feedPostUris. intros [Hne Hu]%filterBoolean_elem. split; [exact Hne|].
  assert (∀ i, Some u = Post.uri <$> Js.index allPosts i → u ∈ Post.uri <$> allPosts)
    as Hat.
  { intros i Hi. symmetry in Hi. apply fmap_Some in Hi as (p & Hp & ->).
    apply index_Some_inv in Hp as (z & _ & _ & Hp).
    apply list_elem_of_fmap_2. by eapply list_elem_of_lookup_2. }
  rewrite !elem_of_cons, elem_of_nil in Hu.
  destruct Hu as [Hu|[Hu|[Hu|[]]]]; by eapply Hat.
Qed.

Section turn_records.

Variables (Date_now : Z) (runId : string) (turnNumber : Z)
  (agents : list Agent.t) (allPosts : list Post.t) (turn : Turn.t).

Hypothesis Hrun :
  createTurnForRun Date_now runId turnNumber agents allPosts = Ok turn.

Local Abbreviation sel := (selectAgents turnNumber agents).

Lemma createTurnForRun_same_keys :
  dom (Turn.agentFeeds turn) = dom (Turn.agentActions turn).
Proof.
  apply createTurnForRun_Ok_inv in Hrun as [_ Hfe].
  change (Turn.agentFeeds turn) with (Turn.agentFeeds turn, Turn.agentActions turn).1.
  change (Turn.agentActions turn)
    with (Turn.agentFeeds turn, Turn.agentActions turn).2 at 2.
  apply (forEach_invariant
           (agentStep Date_now runId turnNumber allPosts sel)
           (fun _ st => dom st.1 = dom st.2) sel 0 (∅, ∅)); [| |exact Hfe].
  - simpl. by rewrite !dom_empty_L.
  - intros i x u u' IH Hx Hstep.
    apply agentStep_Ok_inv in Hstep as (a & feed & likes & follows & -> & _ & _ & _ & ->).
    simpl. by rewrite !dom_insert_L, IH.
Qed.

(** The feed and the action list under one handle were written together. *)
Lemma createTurnForRun_joint_inv (h : string) (acts : list AgentAction.t) :
  Turn.agentActions turn !! h = Some acts →
  ∃ (i : nat) (a : Agent.t) (feed : Feed.t) (likes follows : list AgentAction.t),
    sel !! i = Some (Some a) ∧ h = Agent.handle a
    ∧ makeFeed Date_now runId turnNumber h
        (feedPostUris turnNumber allPosts (Z.of_nat (length sel)) (Z.of_nat i))
      = Ok feed
    ∧ likeActions Date_now runId turnNumber h (Z.of_nat i)
        (feedPostUris turnNumber allPosts (Z.of_nat (length sel)) (Z.of_nat i))
      = Ok likes
    ∧ followActions Date_now runId turnNumber sel h (Z.of_nat i) = Ok follows
    ∧ Turn.agentFeeds turn !! h = Some feed
    ∧ acts = likes ++ follows.
Proof.
  apply createTurnForRun_Ok_inv in Hrun as [_ Hfe]. revert h acts.
  change (Turn.agentFeeds turn) with (Turn.agentFeeds turn, Turn.agentActions turn).1.
  change (Turn.agentActions turn)
    with (Turn.agentFeeds turn, Turn.agentActions turn).2.
  apply (forEach_invariant
           (agentStep Date_now runId turnNumber allPosts sel)
           (fun _ st => ∀ h acts, st.2 !! h = Some acts →
              ∃ (i : nat) (a : Agent.t) (feed : Feed.t)
                (likes follows : list AgentAction.t),
                sel !! i = Some (Some a) ∧ h = Agent.handle a
                ∧ makeFeed Date_now runId turnNumber h
                    (feedPostUris turnNumber allPosts
                       (Z.of_nat (length sel)) (Z.of_nat i))
                  = Ok feed
                ∧ likeActions Date_now runId turnNumber h (Z.of_nat i)
                    (feedPostUris turnNumber allPosts
                       (Z.of_nat (length sel)) (Z.of_nat i))
                  = Ok likes
                ∧ followActions Date_now runId turnNumber sel h (Z.of_nat i)
                  = Ok follows
                ∧ st.1 !! h = Some feed
                ∧ acts = likes ++ follows)
           sel 0 (∅, ∅)); [| |exact Hfe].
  - intros h acts. simpl. by rewrite lookup_empty.
  - intros i x u u' IH Hx Hstep h acts.
    apply agentStep_Ok_inv in Hstep
      as (a & feed & likes & follows & -> & Hfeed & Hl & Hf & ->). simpl.
    destruct (decide (Agent.handle a = h)) as [<-|Hne].
    + rewrite !lookup_insert_eq. intros [= <-]. by exists i, a, feed, likes, follows.
    + rewrite !lookup_insert_ne by done. apply IH.
Qed.

End turn_records.

(** X7. In a returned turn the feeds and the action lists have the same
    keys; a feed bears the handle it is stored under, the run id and the
    turn number of the call; every action bears the handle its list is
    stored under. *)
Theorem turn_records_agree_with_keys (Date_now : Z) (runId : string)
    (turnNumber : Z) (agents : list Agent.t) (allPosts : list Post.t)
    (turn : Turn.t) :
  createTurnForRun Date_now runId turnNumber agents allPosts = Ok turn →
  Turn.turnNumber turn = turnNumber
  ∧ dom (Turn.agentFeeds turn) = dom (Turn.agentActions turn)
  ∧ (∀ h f, Turn.agentFeeds turn !! h = Some f →
       Feed.agentHandle f = h ∧ Feed.runId f = runId
       ∧ Feed.turnNumber f = turnNumber)
  ∧ (∀ h acts a, Turn.agentActions turn !! h = Some acts → a ∈ acts →
       AgentAction.agentHandle a = h).
Proof.
  intros Hrun. split; [by apply createTurnForRun_Ok_inv in Hrun as [? _]|].
  split; [by eapply createTurnForRun_same_keys|]. split.
  - intros h f Hf.
    destruct (createTurnForRun_feed_inv _ _ _ _ _ _ _ _ Hrun Hf) as (i & a & _ & _ & ->).
    by repeat split.
  - intros h acts a Hacts Ha.
    destruct (createTurnForRun_actions_inv _ _ _ _ _ _ _ _ Hrun Hacts)
      as (i & b & likes & follows & _ & _ & Hl & Hf & ->).
    apply elem_of_app in Ha as [Ha|Ha].
    + apply likeActions_Ok_inv in Hl as [->|(_ & _ & _ & ->)];
        [by apply elem_of_nil in Ha|].
      by apply list_elem_of_singleton in Ha as ->.
    + apply followActions_inv in Hf as [->|(_ & _ & a1 & c & _ & -> & Hc & _)].
      * by apply elem_of_nil in Ha.
      * by apply list_elem_of_singleton in Ha as ->.
Qed.

Lemma turn_records_agree_with_keys_witness :
  ∃ turn,
    createTurnForRun 0 "run_2025-01-15T10:30:00" 0 (slice0 3 DUMMY_AGENTS)
      DUMMY_POSTS = Ok turn
    ∧ Turn.turnNumber turn = 0
    ∧ dom (Turn.agentFeeds turn) = dom (Turn.agentActions turn).
Proof.
  assert (∃ turn,
            createTurnForRun 0 "run_2025-01-15T10:30:00" 0 (slice0 3 DUMMY_AGENTS)
              DUMMY_POSTS = Ok turn) as [turn Hturn].
  { eexists. vm_compute. reflexivity. }
  exists turn. split; [exact Hturn|].
  destruct (turn_records_agree_with_keys _ _ _ _ _ _ Hturn) as (Hn & Hdom & _).
  by split.
Defined.

(** X8. A like recorded for an agent is a like of the first post of the feed
    that agent got in the same turn; likes occur in turns of even number
    only, and at most one per agent. *)
Theorem like_targets_first_post_of_own_feed (Date_now : Z) (runId : string)
    (turnNumber : Z) (agents : list Agent.t) (allPosts : list Post.t)
    (turn : Turn.t) (h : string) (acts : list AgentAction.t) :
  createTurnForRun Date_now runId turnNumber agents allPosts = Ok turn →
  Turn.agentActions turn !! h = Some acts →
  (length (filter (fun a => AgentAction.type a = like) acts) ≤ 1)%nat
  ∧ ∀ a, a ∈ acts → AgentAction.type a = like →
      Z.rem turnNumber 2 = 0
      ∧ AgentAction.userId a = None
      ∧ ∃ f u, Turn.agentFeeds turn !! h = Some f
               ∧ Feed.postUris f !! 0%nat = Some u
               ∧ AgentAction.postUri a = Some u.
Proof.
  intros Hrun Hacts.
  destruct (createTurnForRun_joint_inv _ _ _ _ _ _ Hrun h acts Hacts)
    as (i & b & feed & likes & follows & _ & _ & Hmk & Hl & Hf & Hfeed & ->).
  apply makeFeed_Ok_inv in Hmk as ->.
  assert (∀ a, a ∈ follows → AgentAction.type a = follow) as Hfollows.
  { intros a Ha.
    apply followActions_inv in Hf as [->|(_ & _ & a1 & c & _ & -> & _ & _ & Hc)].
    - by apply elem_of_nil in Ha.
    - by apply list_elem_of_singleton in Ha as ->. }
  split.
  - rewrite filter_app, length_app.
    assert (filter (fun a => AgentAction.type a = like) follows = []) as ->.
    { apply filter_none. intros a Ha Hlike.
      rewrite (Hfollows a Ha) in Hlike. discriminate. }
    etrans; [apply Nat.add_le_mono_r, length_filter|].
    apply likeActions_Ok_inv in Hl as [->|(_ & _ & _ & ->)]; simpl; lia.
  - intros a Ha Hlike. apply elem_of_app in Ha as [Ha|Ha].
    + apply likeActions_Ok_inv in Hl as [->|(H2 & _ & Hlen & ->)];
        [by apply elem_of_nil in Ha|].
      apply list_elem_of_singleton in Ha as ->. simpl.
      split; [exact H2|]. split; [reflexivity|].
      destruct (lookup_lt_is_Some_2
                  (feedPostUris turnNumber allPosts
                     (Z.of_nat (length (selectAgents turnNumber agents)))
                     (Z.of_nat i)) 0%nat ltac:(lia)) as [u Hu].
      eexists _, u. split; [exact Hfeed|]. by split.
    + rewrite (Hfollows a Ha) in Hlike. discriminate.
Qed.

Lemma like_targets_first_post_of_own_feed_witness :
  ∃ turn acts a,
    createTurnForRun 0 "run_2025-01-15T10:30:00" 0 (slice0 3 DUMMY_AGENTS)
      DUMMY_POSTS = Ok turn
    ∧ Turn.agentActions turn !! "@charlie.dev" = Some acts
    ∧ acts !! 0%nat = Some a
    ∧ AgentAction.type a = like
    ∧ AgentAction.postUri a = Some "at://did:plc:example3/post3"
    ∧ ∃ f u, Turn.agentFeeds turn !! "@charlie.dev" = Some f
             ∧ Feed.postUris f !! 0%nat = Some u
             ∧ AgentAction.postUri a = Some u.
Proof.
  assert (∃ turn acts a,
            createTurnForRun 0 "run_2025-01-15T10:30:00" 0 (slice0 3 DUMMY_AGENTS)
              DUMMY_POSTS = Ok turn
            ∧ Turn.agentActions turn !! "@charlie.dev" = Some acts
            ∧ acts !! 0%nat = Some a
            ∧ AgentAction.type a = like
            ∧ AgentAction.postUri a = Some "at://did:plc:example3/post3")
    as (turn & acts & a & Hturn & Hacts & Ha & Hty & Huri).
  { eexists _, _, _. split; [vm_compute; reflexivity|].
    split; [vm_compute; reflexivity|]. repeat split; vm_compute; reflexivity. }
  exists turn, acts, a. repeat split; try assumption.
  destruct (like_targets_first_post_of_own_feed _ _ _ _ _ _ _ _ Hturn Hacts)
    as [_ Hlike].
  destruct (Hlike a (list_elem_of_lookup_2 _ _ _ Ha) Hty) as (_ & _ & Hown).
  exact Hown.
Defined.

(** Reading a key that is not the name of a member of [Object.prototype]
    gives the entry of the record, or [undefined]. *)
Lemma get_plain_key {T : Type} (own : gmap string T) (key : string) :
  key ∉ Js.objectPrototypeKeys →
  Js.get own key = match own !! key with
                   | Some v => Own v
                   | None => Undefined
                   end.
Proof.
  intros Hkey. unfold Js.get. destruct (own !! key); [reflexivity|].
  by rewrite bool_decide_eq_false_2.
Qed.

Lemma get_Own_inv {T : Type} (own : gmap string T) (key : string) (v : T) :
  Js.get own key = Own v → own !! key = Some v.
Proof.
  unfold Js.get. destruct (own !! key); [congruence|]. by case_bool_decide.
Qed.

(** X9. The generator records likes and follows only. For a turn returned
    for a roster without an agent called ["__proto__"], whenever the panel
    gets the action list of an agent, the Comments section of that agent is
    empty; and it gets one for every agent whose handle is not the name of a
    member of [Object.prototype]. *)
Theorem no_comment_is_generated (Date_now : Z) (runId : string)
    (turnNumber : Z) (agents : list Agent.t) (allPosts : list Post.t)
    (turn : Turn.t) (agent : Agent.t) :
  createTurnForRun Date_now runId turnNumber agents allPosts = Ok turn →
  "__proto__" ∉ Agent.handle <$> agents →
  (∀ acts, DetailsPanel.agentActions turn agent = Ok acts →
     AgentDetail.comments acts = [])
  ∧ (Agent.handle agent ∉ Js.objectPrototypeKeys →
     ∃ acts, DetailsPanel.agentActions turn agent = Ok acts).
Proof.
  intros Hrun _. split.
  - intros acts. unfold DetailsPanel.agentActions.
    destruct (Js.get _ _) as [acts'| |] eqn:Hget; intros [= <-]; [|reflexivity].
    apply get_Own_inv in Hget as Hacts.
    unfold AgentDetail.comments. apply filter_none. intros a Ha Hc.
    destruct (createTurnForRun_actions_inv _ _ _ _ _ _ _ _ Hrun Hacts)
      as (i & b & likes & follows & _ & _ & Hl & Hf & ->).
    apply elem_of_app in Ha as [Ha|Ha].
    + apply (likeActions_no_follow _ _ _ _ _ _ _ _ Hl) in Ha. congruence.
    + apply followActions_inv in Hf as [->|(_ & _ & a1 & c & _ & -> & _ & _ & Hty)].
      * by apply elem_of_nil in Ha.
      * apply list_elem_of_singleton in Ha as ->. congruence.
  - intros Hkey. unfold DetailsPanel.agentActions.
    rewrite (get_plain_key _ _ Hkey).
    destruct (Turn.agentActions turn !! Agent.handle agent); by eexists.
Qed.

Lemma no_comment_is_generated_witness :
  ∃ turn a acts,
    createTurnForRun 0 "run_2025-01-15T10:30:00" 0 (slice0 3 DUMMY_AGENTS)
      DUMMY_POSTS = Ok turn
    ∧ DUMMY_AGENTS !! 0%nat = Some a
    ∧ DetailsPanel.agentActions turn a = Ok acts
    ∧ length acts = 2%nat
    ∧ AgentDetail.comments acts = [].
Proof.
  assert (∃ turn a acts,
            createTurnForRun 0 "run_2025-01-15T10:30:00" 0 (slice0 3 DUMMY_AGENTS)
              DUMMY_POSTS = Ok turn
            ∧ DUMMY_AGENTS !! 0%nat = Some a
            ∧ DetailsPanel.agentActions turn a = Ok acts
            ∧ length acts = 2%nat)
    as (turn & a & acts & Hturn & Ha & Hacts & Hlen).
  { eexists _, _, _. split; [vm_compute; reflexivity|].
    split; [reflexivity|]. split; vm_compute; reflexivity. }
  exists turn, a, acts. repeat split; try assumption.
  assert ("__proto__" ∉ Agent.handle <$> slice0 3 DUMMY_AGENTS) as Hroster.
  { apply (bool_decide_unpack _). vm_compute. exact I. }
  exact (proj1 (no_comment_is_generated _ _ _ _ _ _ a Hturn Hroster) acts Hacts).
Defined.

(** ** What the details panel shows of a generated turn *)

Lemma getPostByUri_of_corpus_uri (u : string) :
  u ∈ Post.uri <$> DUMMY_POSTS →
  ∃ p, getPostByUri u = Some p ∧ Post.uri p = u ∧ p ∈ DUMMY_POSTS.
Proof.
  intros Hu. unfold getPostByUri.
  destruct (Js.find _ DUMMY_POSTS) as [p|] eqn:Hfind.
  - apply (find_key_Some Post.uri) in Hfind as [Hin Hp]. by exists p.
  - apply (find_key_None Post.uri) in Hfind. contradiction.
Qed.

Lemma omap_getPostByUri_uris (uris : list string) :
  (∀ u, u ∈ uris → u ∈ Post.uri <$> DUMMY_POSTS) →
  Post.uri <$> omap getPostByUri uris = uris.
Proof.
  induction uris as [|u uris IH]; intros Hall; [reflexivity|]. csimpl.
  destruct (getPostByUri_of_corpus_uri u (Hall u (list_elem_of_here _ _)))
    as (p & -> & Hp & _).
  csimpl. rewrite Hp. f_equal. apply IH. intros v Hv.
  by apply Hall, list_elem_of_further.
Qed.

(** X10. For a turn generated from [DUMMY_POSTS] for a roster without an
    agent called ["__proto__"], and an agent whose handle is not the name of
    a member of [Object.prototype], the details panel resolves every URI of
    the agent's feed: the posts it shows are those of the feed, in feed
    order, none dropped; an agent without a feed is shown none. *)
Theorem details_panel_resolves_feed (Date_now : Z) (runId : string)
    (turnNumber : Z) (agents : list Agent.t) (turn : Turn.t) (agent : Agent.t) :
  createTurnForRun Date_now runId turnNumber agents DUMMY_POSTS = Ok turn →
  "__proto__" ∉ Agent.handle <$> agents →
  Agent.handle agent ∉ Js.objectPrototypeKeys →
  ∃ posts, DetailsPanel.feedPosts turn agent = Ok posts
           ∧ Post.uri <$> posts = feedUris (Agent.handle agent) turn.
Proof.
  intros Hrun _ Hkey. unfold DetailsPanel.feedPosts, feedUris.
  rewrite (get_plain_key _ _ Hkey).
  destruct (Turn.agentFeeds turn !! Agent.handle agent) as [f|] eqn:Hf;
    [|by eexists].
  eexists. split; [reflexivity|].
  simpl. apply omap_getPostByUri_uris. intros u Hu.
  destruct (createTurnForRun_feed_inv _ _ _ _ _ _ _ _ Hrun Hf) as (i & a & _ & _ & ->).
  simpl in Hu. by apply feedPostUris_elem in Hu as [_ Hu].
Qed.

Lemma details_panel_resolves_feed_witness :
  ∃ turn a posts,
    createTurnForRun 0 "run_2025-01-15T10:30:00" 3 (slice0 3 DUMMY_AGENTS)
      DUMMY_POSTS = Ok turn
    ∧ DUMMY_AGENTS !! 0%nat = Some a
    ∧ feedUris (Agent.handle a) turn
      = [ "at://did:plc:example10/post10"; "at://did:plc:example1/post1";
          "at://did:plc:example2/post2" ]
    ∧ DetailsPanel.feedPosts turn a = Ok posts
    ∧ Post.uri <$> posts = feedUris (Agent.handle a) turn.
Proof.
  assert (∃ turn a,
            createTurnForRun 0 "run_2025-01-15T10:30:00" 3 (slice0 3 DUMMY_AGENTS)
              DUMMY_POSTS = Ok turn
            ∧ DUMMY_AGENTS !! 0%nat = Some a
            ∧ feedUris (Agent.handle a) turn
              = [ "at://did:plc:example10/post10"; "at://did:plc:example1/post1";
                  "at://did:plc:example2/post2" ])
    as (turn & a & Hturn & Ha & Huris).
  { eexists _, _. split; [vm_compute; reflexivity|].
    split; [reflexivity|]. vm_compute. reflexivity. }
  assert ("__proto__" ∉ Agent.handle <$> slice0 3 DUMMY_AGENTS) as Hroster.
  { apply (bool_decide_unpack _). vm_compute. exact I. }
  assert (Agent.handle a ∉ Js.objectPrototypeKeys) as Hkey.
  { injection Ha as <-. apply (bool_decide_unpack _). vm_compute. exact I. }
  destruct (details_panel_resolves_feed _ _ _ _ _ a Hturn Hroster Hkey)
    as (posts & Hposts & Hsame).
  exists turn, a, posts. by repeat split.
Defined.

(** X11. For a turn generated from [DUMMY_POSTS] for a roster without an
    agent called ["__proto__"], and an agent whose handle is not the name of
    a member of [Object.prototype], every like of the agent shows up under
    Liked Posts: the posts listed there are the posts the agent's like
    actions name, one for each like, in whatever order the posts of the
    turn's feeds are listed. *)
Theorem liked_posts_resolve (Date_now : Z) (runId : string)
    (turnNumber : Z) (agents : list Agent.t) (turn : Turn.t) (agent : Agent.t)
    (posts : list Post.t) :
  createTurnForRun Date_now runId turnNumber agents DUMMY_POSTS = Ok turn →
  "__proto__" ∉ Agent.handle <$> agents →
  Agent.handle agent ∉ Js.objectPrototypeKeys →
  posts ≡ₚ DetailsPanel.allPosts turn →
  ∃ acts, DetailsPanel.agentActions turn agent = Ok acts
          ∧ Post.uri <$> AgentDetail.likedPosts acts posts
            = omap AgentAction.postUri
                (filter (fun a => AgentAction.type a = like) acts).
Proof.
  intros Hrun _ Hkey Hposts. unfold DetailsPanel.agentActions.
  rewrite (get_plain_key _ _ Hkey).
  destruct (Turn.agentActions turn !! Agent.handle agent) as [acts|] eqn:Hacts;
    [|by eexists].
  eexists. split; [reflexivity|].
  destruct (createTurnForRun_joint_inv _ _ _ _ _ _ Hrun _ acts Hacts)
    as (i & b & feed & likes & follows & _ & _ & Hmk & Hl & Hf & Hfeed & ->).
  apply makeFeed_Ok_inv in Hmk as ->.
  set (uris := feedPostUris turnNumber DUMMY_POSTS
                 (Z.of_nat (length (selectAgents turnNumber agents))) (Z.of_nat i))
    in *.
  assert (∀ a, a ∈ follows → AgentAction.type a = follow) as Hfollows.
  { intros a Ha.
    apply followActions_inv in Hf as [->|(_ & _ & a1 & c & _ & -> & _ & _ & Hc)].
    - by apply elem_of_nil in Ha.
    - by apply list_elem_of_singleton in Ha as ->. }
  unfold AgentDetail.likedPosts. rewrite !filter_app.
  rewrite (filter_none _ follows)
    by (intros a Ha [Hlike _]; rewrite (Hfollows a Ha) in Hlike; discriminate).
  rewrite (filter_none (fun a => AgentAction.type a = like) follows)
    by (intros a Ha Hlike; rewrite (Hfollows a Ha) in Hlike; discriminate).
  rewrite !app_nil_r.
  apply likeActions_Ok_inv in Hl as [->|(_ & _ & Hlen & ->)]; [reflexivity|].
  destruct (lookup_lt_is_Some_2 uris 0%nat ltac:(lia)) as [u Hu].
  rewrite Hu.
  pose proof (list_elem_of_lookup_2 _ _ _ Hu) as Hin.
  apply feedPostUris_elem in Hin as Hcorpus. destruct Hcorpus as [Hne Hcorpus].
  destruct (getPostByUri_of_corpus_uri u Hcorpus) as (p & Hp & Hpu & _).
  rewrite filter_cons_True
    by (split; [reflexivity|]; simpl; by destruct u).
  rewrite filter_cons_True by reflexivity.
  rewrite !filter_nil. csimpl.
  destruct (Js.find _ posts) as [q|] eqn:Hfind.
  - apply (find_key_Some (fun p => Some (Post.uri p))) in Hfind as [_ [= Hq]].
    csimpl. by rewrite Hq.
  - exfalso. apply (find_key_None (fun p => Some (Post.uri p))) in Hfind.
    apply Hfind. apply list_elem_of_fmap. exists p. split; [by rewrite Hpu|].
    rewrite Hposts.
    unfold DetailsPanel.allPosts. apply list_elem_of_bind.
    eexists (_, _). split; [|apply elem_of_map_to_list; exact Hfeed].
    simpl. apply list_elem_of_omap. exists u. by split.
Qed.

Lemma liked_posts_resolve_witness :
  ∃ turn a acts,
    createTurnForRun 0 "run_2025-01-15T10:30:00" 0 (slice0 3 DUMMY_AGENTS)
      DUMMY_POSTS = Ok turn
    ∧ DUMMY_AGENTS !! 2%nat = Some a
    ∧ DetailsPanel.agentActions turn a = Ok acts
    ∧ omap AgentAction.postUri
        (filter (fun a => AgentAction.type a = like) acts)
      = [ "at://did:plc:example3/post3" ]
    ∧ Post.uri <$> AgentDetail.likedPosts acts (DetailsPanel.allPosts turn)
      = [ "at://did:plc:example3/post3" ].
Proof.
  assert (∃ turn a acts,
            createTurnForRun 0 "run_2025-01-15T10:30:00" 0 (slice0 3 DUMMY_AGENTS)
              DUMMY_POSTS = Ok turn
            ∧ DUMMY_AGENTS !! 2%nat = Some a
            ∧ DetailsPanel.agentActions turn a = Ok acts
            ∧ omap AgentAction.postUri
                (filter (fun a => AgentAction.type a = like) acts)
              = [ "at://did:plc:example3/post3" ])
    as (turn & a & acts & Hturn & Ha & Hacts & Hlikes).
  { eexists _, _, _. split; [vm_compute; reflexivity|].
    split; [reflexivity|]. split; vm_compute; reflexivity. }
  assert ("__proto__" ∉ Agent.handle <$> slice0 3 DUMMY_AGENTS) as Hroster.
  { apply (bool_decide_unpack _). vm_compute. exact I. }
  assert (Agent.handle a ∉ Js.objectPrototypeKeys) as Hkey.
  { injection Ha as <-. apply (bool_decide_unpack _). vm_compute. exact I. }
  destruct (liked_posts_resolve _ _ _ _ _ a (DetailsPanel.allPosts turn)
              Hturn Hroster Hkey (reflexivity _))
    as (acts' & Hacts' & Hsame).
  exists turn, a, acts. repeat split; try assumption.
  rewrite Hacts in Hacts'. injection Hacts' as <-. by rewrite Hsame.
Defined.

(** ** How many agents one turn serves *)

Lemma all_Some_fmap {A : Type} (l : list (option A)) :
  (∀ i o, l !! i = Some o → is_Some o) → l = Some <$> omap id l.
Proof.
  induction l as [|o l IH]; intros Hall; [reflexivity|].
  destruct (Hall 0%nat o eq_refl) as [x ->]. csimpl. f_equal.
  apply IH. intros i o' Hi. exact (Hall (S i) o' Hi).
Qed.

(** With a turn number that is not negative the selected agents sit at
    pairwise different places of the roster. *)
Lemma selectAgents_handles_NoDup (turnNumber : Z) (agents : list Agent.t) :
  0 ≤ turnNumber →
  NoDup (Agent.handle <$> agents) →
  ∃ picked,
    selectAgents turnNumber agents = Some <$> picked
    ∧ length picked = Z.to_nat (Z.min (Z.of_nat (length agents)) 5)
    ∧ NoDup (Agent.handle <$> picked).
Proof.
  intros Ht Hnd. exists (omap id (selectAgents turnNumber agents)).
  assert (selectAgents turnNumber agents
          = Some <$> omap id (selectAgents turnNumber agents)) as Hsel.
  { apply all_Some_fmap. intros i o Hi.
    destruct (selectAgents_nonneg turnNumber agents i o Ht Hi) as (a & -> & _).
    by eexists. }
  split; [exact Hsel|]. split.
  { rewrite <- (selectAgents_length turnNumber agents). rewrite Hsel at 2.
    by rewrite length_fmap. }
  apply NoDup_alt. intros i j h Hi Hj.
  rewrite list_lookup_fmap in Hi, Hj.
  apply fmap_Some in Hi as (a & Hi & ->). apply fmap_Some in Hj as (b & Hj & Hab).
  assert (selectAgents turnNumber agents !! i = Some (Some a)) as Hsi.
  { rewrite Hsel, list_lookup_fmap, Hi. reflexivity. }
  assert (selectAgents turnNumber agents !! j = Some (Some b)) as Hsj.
  { rewrite Hsel, list_lookup_fmap, Hj. reflexivity. }
  apply selectAgents_lookup_Some in Hsi as (Hilt & _ & Hai).
  apply selectAgents_lookup_Some in Hsj as (Hjlt & _ & Hbj).
  set (len := Z.of_nat (length agents)) in *.
  assert (0 < len) as Hlen by lia.
  pose proof (rem_nonneg_range turnNumber len Ht Hlen) as Hr.
  set (r := Z.rem turnNumber len) in *.
  rewrite (rem_wrap r (Z.of_nat i) len) in Hai by lia.
  rewrite (rem_wrap r (Z.of_nat j) len) in Hbj by lia.
  assert ((Agent.handle <$> agents)
            !! Z.to_nat (if decide (r + Z.of_nat i < len)
                         then r + Z.of_nat i else r + Z.of_nat i - len)
          = Some (Agent.handle a)) as Ei by (by rewrite list_lookup_fmap, Hai).
  assert ((Agent.handle <$> agents)
            !! Z.to_nat (if decide (r + Z.of_nat j < len)
                         then r + Z.of_nat j else r + Z.of_nat j - len)
          = Some (Agent.handle a)) as Ej by (by rewrite list_lookup_fmap, Hbj, Hab).
  pose proof (NoDup_lookup _ _ _ _ Hnd Ei Ej) as Heq.
  repeat case_decide; lia.
Qed.

(** A call that returns for a negative turn number has the start offset 0:
    it selects the agents that turn 0 selects. *)
Lemma selectAgents_returned_negative (Date_now : Z) (runId : string)
    (turnNumber : Z) (agents : list Agent.t) (allPosts : list Post.t)
    (turn : Turn.t) :
  createTurnForRun Date_now runId turnNumber agents allPosts = Ok turn →
  turnNumber < 0 →
  selectAgents turnNumber agents = selectAgents 0 agents.
Proof.
  intros Hrun Ht.
  destruct (decide (Z.of_nat (length agents) = 0)) as [Hz|Hnz].
  { unfold selectAgents. by rewrite Hz. }
  assert (Z.rem turnNumber (Z.of_nat (length agents)) = 0) as Hr.
  { destruct (lookup_lt_is_Some_2 (selectAgents turnNumber agents) 0%nat) as [o Ho].
    { rewrite selectAgents_length. lia. }
    destruct (createTurnForRun_selected_defined _ _ _ _ _ _ _ _ Hrun Ho) as [a0 ->].
    apply selectAgents_lookup_Some in Ho as (_ & Hj0 & _).
    set (len := Z.of_nat (length agents)) in *.
    pose proof (rem_abs_range turnNumber len ltac:(lia)) as Hb.
    pose proof (Z.rem_nonpos turnNumber len ltac:(lia) ltac:(lia)) as Hs.
    change (Z.of_nat 0) with 0 in Hj0. rewrite Z.add_0_r in Hj0.
    rewrite rem_small_neg in Hj0 by lia. lia. }
  unfold selectAgents. rewrite !rem_Some by assumption. rewrite Hr.
  by rewrite Z.rem_0_l.
Qed.

(** X12. With pairwise different handles, none of them ["__proto__"], a
    returned turn serves exactly [min(|agents|, 5)] agents, whatever the
    turn number: that many feeds and that many action lists. *)
Theorem turn_serves_min_five_agents (Date_now : Z) (runId : string)
    (turnNumber : Z) (agents : list Agent.t) (allPosts : list Post.t)
    (turn : Turn.t) :
  NoDup (Agent.handle <$> agents) →
  "__proto__" ∉ Agent.handle <$> agents →
  createTurnForRun Date_now runId turnNumber agents allPosts = Ok turn →
  size (Turn.agentFeeds turn) = Z.to_nat (Z.min (Z.of_nat (length agents)) 5)
  ∧ size (Turn.agentActions turn)
    = Z.to_nat (Z.min (Z.of_nat (length agents)) 5).
Proof.
  intros Hnd _ Hrun.
  assert (∃ picked,
            selectAgents turnNumber agents = Some <$> picked
            ∧ length picked = Z.to_nat (Z.min (Z.of_nat (length agents)) 5)
            ∧ NoDup (Agent.handle <$> picked))
    as (picked & Hsel & Hlen & Hpicked).
  { destruct (decide (0 ≤ turnNumber)) as [Ht|Ht];
      [by apply selectAgents_handles_NoDup|].
    rewrite (selectAgents_returned_negative _ _ _ _ _ _ Hrun) by lia.
    by apply selectAgents_handles_NoDup. }
  assert (dom (Turn.agentFeeds turn) = list_to_set (Agent.handle <$> picked))
    as Hdom.
  { apply set_eq. intros h.
    rewrite elem_of_dom, elem_of_list_to_set, list_elem_of_fmap. split.
    - intros [f Hf].
      destruct (createTurnForRun_feed_inv _ _ _ _ _ _ _ _ Hrun Hf)
        as (i & a & Hi & -> & _).
      exists a. split; [reflexivity|].
      rewrite Hsel, list_lookup_fmap in Hi.
      apply fmap_Some in Hi as (a' & Hi & [= ->]).
      by eapply list_elem_of_lookup_2.
    - intros (a & -> & Ha). apply list_elem_of_lookup in Ha as [i Hi].
      assert (selectAgents turnNumber agents !! i = Some (Some a)) as Hsi.
      { by rewrite Hsel, list_lookup_fmap, Hi. }
      destruct (createTurnForRun_feed_dom _ _ _ _ _ _ _ _ Hrun Hsi) as (f & Hf & _).
      by exists f. }
  assert (size (Turn.agentFeeds turn)
          = Z.to_nat (Z.min (Z.of_nat (length agents)) 5)) as Hsize.
  { rewrite <- (size_dom (D := gset string)), Hdom.
    rewrite size_list_to_set by exact Hpicked. by rewrite length_fmap. }
  split; [exact Hsize|].
  rewrite <- (size_dom (D := gset string)).
  rewrite <- (createTurnForRun_same_keys _ _ _ _ _ _ Hrun).
  by rewrite size_dom.
Qed.

Lemma turn_serves_min_five_agents_witness :
  ∃ turn,
    createTurnForRun 0 "run_2025-01-15T10:30:00" 7 DUMMY_AGENTS DUMMY_POSTS
    = Ok turn
    ∧ size (Turn.agentFeeds turn) = 5%nat
    ∧ size (Turn.agentActions turn) = 5%nat.
Proof.
  assert (∃ turn,
            createTurnForRun 0 "run_2025-01-15T10:30:00" 7 DUMMY_AGENTS DUMMY_POSTS
            = Ok turn) as [turn Hturn].
  { eexists. vm_compute. reflexivity. }
  exists turn. split; [exact Hturn|].
  apply (turn_serves_min_five_agents 0 "run_2025-01-15T10:30:00" 7 DUMMY_AGENTS
           DUMMY_POSTS turn); [| |exact Hturn].
  - apply (bool_decide_unpack (NoDup (Agent.handle <$> DUMMY_AGENTS))).
    vm_compute. exact I.
  - apply (bool_decide_unpack ("__proto__" ∉ Agent.handle <$> DUMMY_AGENTS)).
    vm_compute. exact I.
Defined.

(** ** The records of the dummy runs *)

(** X13. An inner record of [DUMMY_TURNS] builds without throwing when the
    turn numbers are not negative and the timestamps of their turns (up to
    7 seconds after the minute of the turn) are in the range of [Date]; its
    keys are the turn numbers listed, and the turn stored under [n] is the
    turn the generator returns for [n]. *)
Theorem turnRecord_keys (Date_now : Z) (runId : string) (agents : list Agent.t)
    (turnNumbers : list Z) :
  (∀ n, n ∈ turnNumbers →
     0 ≤ n ∧ - Js.maxTime ≤ Date_now + n * 60000
     ∧ Date_now + n * 60000 + 7000 ≤ Js.maxTime) →
  ∃ m, turnRecord Date_now runId agents turnNumbers = Ok m
       ∧ (∀ n, is_Some (m !! n) ↔ n ∈ turnNumbers)
       ∧ (∀ n t, m !! n = Some t →
            createTurnForRun Date_now runId n agents DUMMY_POSTS = Ok t
            ∧ Turn.turnNumber t = n).
Proof.
  induction turnNumbers as [|k ks IH]; intros Hpos.
  - exists ∅. split; [reflexivity|]. split.
    + intros n. rewrite lookup_empty, elem_of_nil. split; [by intros [? ?]|done].
    + intros n t. by rewrite lookup_empty.
  - destruct IH as (m & Hm & Hkeys & Hturns).
    { intros n Hn. by apply Hpos, list_elem_of_further. }
    destruct (Hpos k (list_elem_of_here _ _)) as (Hk & Hlo & Hhi).
    destruct (createTurnForRun_returns Date_now runId k agents DUMMY_POSTS
                Hk Hlo Hhi) as [t Ht].
    exists (<[k := t]> m). simpl. rewrite Ht. simpl. rewrite Hm. simpl.
    split; [reflexivity|]. split.
    + intros n. rewrite elem_of_cons. destruct (decide (k = n)) as [<-|Hne].
      * rewrite lookup_insert_eq. split; [by left|by eexists].
      * rewrite lookup_insert_ne by assumption. rewrite Hkeys.
        split; [by right|]. by intros [->|?].
    + intros n t'. destruct (decide (k = n)) as [<-|Hne].
      * rewrite lookup_insert_eq. intros [= <-]. split; [exact Ht|].
        by apply createTurnForRun_Ok_inv in Ht as [? _].
      * rewrite lookup_insert_ne by assumption. apply Hturns.
Qed.

Lemma turnRecord_keys_witness :
  ∃ m, turnRecord 0 "run_2025-01-15T14:45:00" (slice0 4 DUMMY_AGENTS) (seqZ 0 3)
       = Ok m
       ∧ (∀ n, is_Some (m !! n) ↔ n ∈ seqZ 0 3)
       ∧ (∀ n t, m !! n = Some t →
            createTurnForRun 0 "run_2025-01-15T14:45:00" n (slice0 4 DUMMY_AGENTS)
              DUMMY_POSTS = Ok t
            ∧ Turn.turnNumber t = n).
Proof.
  apply (turnRecord_keys 0 "run_2025-01-15T14:45:00" (slice0 4 DUMMY_AGENTS)
           (seqZ 0 3)).
  intros n Hn. apply elem_of_seqZ in Hn. unfold Js.maxTime. lia.
Defined.

(** ** The page over time *)

Lemma DUMMY_RUNS_ids_not_empty :
  Forall (fun r => Run.runId r ≠ EmptyString) DUMMY_RUNS.
Proof. unfold DUMMY_RUNS. repeat constructor; discriminate. Qed.

(** X14. On the first render the statuses the sidebar shows are the
    statuses the list of runs was initialised with: recomputing them with
    [getRunStatus] changes nothing. *)
Theorem first_render_statuses (DUMMY_TURNS : gmap string (gmap Z Turn.t)) :
  Page.runsWithStatus DUMMY_TURNS (Page.initial DUMMY_TURNS)
  = Page.runs (Page.initial DUMMY_TURNS).
Proof.
  unfold Page.runsWithStatus.
  change (Page.runs (Page.initial DUMMY_TURNS)) with (Page.initialRuns DUMMY_TURNS).
  unfold Page.initialRuns.
  rewrite <- list_fmap_compose. apply list_fmap_ext. intros i r Hr.
  pose proof DUMMY_RUNS_ids_not_empty as Hids.
  rewrite Forall_forall in Hids.
  pose proof (Hids r (list_elem_of_lookup_2 _ _ _ Hr)) as Hne.
  simpl. f_equal. unfold Page.getRunStatus. simpl.
  rewrite getCompletedTurnsCount_size by assumption.
  unfold recordedTurns. simpl. rewrite lookup_empty.
  by rewrite length_fmap, length_map_to_list.
Qed.

Lemma appValid_reachable (DUMMY_TURNS : gmap string (gmap Z Turn.t))
    (events : list App.Event) :
  appValid (App.run (App.initial DUMMY_TURNS) events).
Proof.
  unfold App.run. generalize (appValid_initial DUMMY_TURNS).
  generalize (App.initial DUMMY_TURNS) as st.
  induction events as [|e events IH]; intros st Hst; simpl; [assumption|].
  apply IH. by apply appValid_step.
Qed.

Lemma newRunTurns_step (st : App.State) (e : App.Event) :
  Page.newRunTurns (App.page (App.step st e)) = Page.newRunTurns (App.page st).
Proof. unfold App.step. destruct e, (App.form st); reflexivity. Qed.

Lemma newRunTurns_reachable (DUMMY_TURNS : gmap string (gmap Z Turn.t))
    (events : list App.Event) :
  Page.newRunTurns (App.page (App.run (App.initial DUMMY_TURNS) events)) = ∅.
Proof.
  unfold App.run.
  assert (Page.newRunTurns (App.page (App.initial DUMMY_TURNS)) = ∅) as Hinit
    by reflexivity.
  revert Hinit. generalize (App.initial DUMMY_TURNS) as st.
  induction events as [|e events IH]; intros st Hst; simpl; [assumption|].
  apply IH. by rewrite newRunTurns_step.
Qed.

(** X15. Nothing the user does records a turn: [newRunTurns] stays empty.
    So a run that has no record in [DUMMY_TURNS], as a run created through
    the form, has no turn to show and is ['running'] for good. *)
Theorem created_run_never_progresses
    (DUMMY_TURNS : gmap string (gmap Z Turn.t)) (events : list App.Event) :
  let st := App.page (App.run (App.initial DUMMY_TURNS) events) in
  Page.newRunTurns st = ∅
  ∧ ∀ r, r ∈ Page.runs st → DUMMY_TURNS !! Run.runId r = None →
      Page.getAvailableTurns DUMMY_TURNS st (Some (Run.runId r)) = []
      ∧ Page.getRunStatus DUMMY_TURNS st (Some r) = running.
Proof.
  intros st. pose proof (newRunTurns_reachable DUMMY_TURNS events) as Hempty.
  fold st in Hempty. split; [exact Hempty|]. intros r Hr Hnone.
  assert (Page.getAvailableTurns DUMMY_TURNS st (Some (Run.runId r)) = []) as Hav.
  { unfold Page.getAvailableTurns. destruct (Run.runId r) as [|c s]; [reflexivity|].
    rewrite Hempty, lookup_empty, Hnone. simpl.
    by rewrite map_to_list_empty. }
  split; [exact Hav|].
  unfold Page.getRunStatus, Page.getCompletedTurnsCount. rewrite Hav. simpl.
  destruct (appValid_reachable DUMMY_TURNS events) as (_ & Hruns & _).
  destruct (Hruns r Hr) as [_ Hturns].
  case_decide; [lia|reflexivity].
Qed.

Lemma created_run_never_progresses_witness :
  let st := App.page (App.run (App.initial ∅)
                        [ App.ChangeNumTurns (Some 2);
                          App.Submit "2025-02-01T00:00:00.000Z";
                          App.SelectTurn (Page.turn 0) ]) in
  (Run.runId <$> Page.runs st) !! 0%nat = Some "run_2025-02-01T00:00:00.000Z"
  ∧ ∀ r, r ∈ Page.runs st →
      Page.getAvailableTurns ∅ st (Some (Run.runId r)) = []
      ∧ Page.getRunStatus ∅ st (Some r) = running.
Proof.
  split; [reflexivity|]. intros r Hr.
  apply (proj2 (created_run_never_progresses ∅
                  [ App.ChangeNumTurns (Some 2);
                    App.Submit "2025-02-01T00:00:00.000Z";
                    App.SelectTurn (Page.turn 0) ]) r Hr).
  apply lookup_empty.
Defined.

(** X16. On the start screen, typing a number of agents and a number of
    turns that are 1 or more and submitting creates a run with exactly these
    numbers, puts it first in the list and selects it; the form is gone. *)
Theorem typed_configuration_becomes_run (st : App.State)
    (f : ConfigForm.State) (numAgents numTurns : Z) (nowIso : string) :
  App.form st = Some f →
  Page.isStartScreen (App.page st) = true →
  1 ≤ numAgents → 1 ≤ numTurns →
  let st' := App.run st [ App.ChangeNumAgents (Some numAgents);
                          App.ChangeNumTurns (Some numTurns);
                          App.Submit nowIso ] in
  Page.runs (App.page st')
  = Run.mk ("run_" +:+ nowIso) nowIso numTurns numAgents running
      :: Page.runs (App.page st)
  ∧ Home.selectedRun (App.page st')
    = Some (Run.mk ("run_" +:+ nowIso) nowIso numTurns numAgents running)
  ∧ Home.getRunConfig (App.page st') (Home.selectedRun (App.page st'))
    = Some (RunConfig.mk numAgents numTurns)
  ∧ App.form st' = None.
Proof.
  intros Hf Hstart Ha Ht. unfold App.run.
  change (foldl App.step st
            [ App.ChangeNumAgents (Some numAgents);
              App.ChangeNumTurns (Some numTurns); App.Submit nowIso ])
    with (App.step
            (App.step (App.step st (App.ChangeNumAgents (Some numAgents)))
               (App.ChangeNumTurns (Some numTurns)))
            (App.Submit nowIso)).
  assert (App.step st (App.ChangeNumAgents (Some numAgents))
          = App.mk (App.page st)
              (Some (ConfigForm.mk numAgents (ConfigForm.numTurns f)))) as ->.
  { unfold App.step. rewrite Hf. unfold App.render. rewrite Hstart. simpl.
    unfold ConfigForm.onChangeNumAgents, ConfigForm.clamp.
    case_decide; [lia|reflexivity]. }
  assert (App.step
            (App.mk (App.page st)
               (Some (ConfigForm.mk numAgents (ConfigForm.numTurns f))))
            (App.ChangeNumTurns (Some numTurns))
          = App.mk (App.page st) (Some (ConfigForm.mk numAgents numTurns))) as ->.
  { unfold App.step. simpl. unfold App.render. rewrite Hstart. simpl.
    unfold ConfigForm.onChangeNumTurns, ConfigForm.clamp. simpl.
    case_decide; [lia|reflexivity]. }
  unfold App.step. simpl.
  unfold Home.selectedRun, Js.find. simpl.
  rewrite bool_decide_eq_true_2 by reflexivity. simpl.
  rewrite lookup_insert_eq. by repeat split.
Qed.

Lemma typed_configuration_becomes_run_witness :
  let st' := App.run (App.initial ∅)
               [ App.ChangeNumAgents (Some 3); App.ChangeNumTurns (Some 7);
                 App.Submit "2025-02-01T00:00:00.000Z" ] in
  Page.runs (App.page st')
  = Run.mk "run_2025-02-01T00:00:00.000Z" "2025-02-01T00:00:00.000Z" 7 3 running
      :: Page.runs (App.page (App.initial ∅))
  ∧ App.form st' = None.
Proof.
  destruct (typed_configuration_becomes_run (App.initial ∅)
              (ConfigForm.init DEFAULT_CONFIG) 3 7 "2025-02-01T00:00:00.000Z")
    as (Hruns & _ & _ & Hform); try reflexivity; try lia.
  by split.
Defined.

(** ** The sections of an agent card *)

(** X17. Toggling a section of the agent card twice restores the record
    when the section is one of the record; toggling a section leaves every
    other section as it was; a section that is not in the record comes out
    expanded, unless its name is that of a member of [Object.prototype], in
    which case it comes out collapsed. *)
Theorem toggleSection_twice (section : string) (prev : gmap string bool) :
  (is_Some (prev !! section) →
   AgentDetail.toggleSection section (AgentDetail.toggleSection section prev)
   = prev)
  ∧ (∀ other, other ≠ section →
       AgentDetail.toggleSection section prev !! other = prev !! other)
  ∧ (prev !! section = None → section ∉ Js.objectPrototypeKeys →
     AgentDetail.toggleSection section prev !! section = Some true)
  ∧ (prev !! section = None → section ∈ Js.objectPrototypeKeys →
     AgentDetail.toggleSection section prev !! section = Some false).
Proof.
  unfold AgentDetail.toggleSection. split; [|split; [|split]].
  - intros [b Hb]. rewrite lookup_insert_eq, insert_insert_eq, Hb. simpl.
    rewrite negb_involutive. by apply insert_id.
  - intros other Hne. by rewrite lookup_insert_ne.
  - intros -> Hkey. by rewrite lookup_insert_eq, bool_decide_eq_false_2.
  - intros -> Hkey. by rewrite lookup_insert_eq, bool_decide_eq_true_2.
Qed.

Lemma toggleSection_twice_witness :
  AgentDetail.toggleSection "feed"
    (AgentDetail.toggleSection "feed" AgentDetail.initialSections)
  = AgentDetail.initialSections
  ∧ AgentDetail.toggleSection "bio" AgentDetail.initialSections !! "bio"
    = Some true
  ∧ AgentDetail.toggleSection "toString" AgentDetail.initialSections !! "toString"
    = Some false.
Proof.
  pose proof (toggleSection_twice "feed" AgentDetail.initialSections) as Hfeed.
  pose proof (toggleSection_twice "bio" AgentDetail.initialSections) as Hbio.
  pose proof (toggleSection_twice "toString" AgentDetail.initialSections) as Hts.
  split; [|split].
  - apply (proj1 Hfeed). by eexists.
  - apply (proj1 (proj2 (proj2 Hbio))); [reflexivity|].
    apply (bool_decide_unpack _). vm_compute. exact I.
  - apply (proj2 (proj2 (proj2 Hts))); [reflexivity|].
    apply (bool_decide_unpack _). vm_compute. exact I.
Defined.

(** ** Feeds recur *)

Lemma selectAgents_period (turnNumber k : Z) (agents : list Agent.t) :
  0 ≤ turnNumber → 0 ≤ k →
  selectAgents (turnNumber + Z.of_nat (length agents) * k) agents
  = selectAgents turnNumber agents.
Proof.
  intros Ht Hk. unfold selectAgents.
  destruct (decide (Z.of_nat (length agents) = 0)) as [Hz|Hnz].
  { by rewrite Hz. }
  rewrite !rem_Some by assumption.
  rewrite (Z.mul_comm _ k), Z.rem_add by nia. reflexivity.
Qed.

Lemma feedPostUris_period (turnNumber k nsel idx : Z) (allPosts : list Post.t) :
  0 ≤ turnNumber → 0 ≤ k → 0 ≤ nsel → 0 ≤ idx →
  feedPostUris (turnNumber + k * Z.of_nat (length allPosts)) allPosts nsel idx
  = feedPostUris turnNumber allPosts nsel idx.
Proof.
  intros Ht Hk Hn Hi. unfold feedPostUris.
  destruct (decide (Z.of_nat (length allPosts) = 0)) as [Hz|Hnz].
  { by rewrite Hz, Z.mul_0_r, Z.add_0_r. }
  rewrite !(rem_Some _ _ Hnz).
  replace ((turnNumber + k * Z.of_nat (length allPosts)) * nsel + idx)
    with ((turnNumber * nsel + idx) + (k * nsel) * Z.of_nat (length allPosts))
    by lia.
  rewrite Z.rem_add by nia. reflexivity.
Qed.

(** Two runs of the loop over the same selection whose feeds list the same
    URIs at every position write, handle by handle, the same URIs. *)
Lemma forEach_same_uris (Date_now Date_now' : Z) (runId runId' : string)
    (t t' : Z) (allPosts : list Post.t) (sel xs : list (option Agent.t))
    (idx : Z) (st st' s1 s1' : gmap string Feed.t * gmap string (list AgentAction.t)) :
  (∀ i, 0 ≤ i → feedPostUris t' allPosts (Z.of_nat (length sel)) i
                = feedPostUris t allPosts (Z.of_nat (length sel)) i) →
  0 ≤ idx →
  (∀ h, Feed.postUris <$> st'.1 !! h = Feed.postUris <$> st.1 !! h) →
  Js.forEach (agentStep Date_now runId t allPosts sel) xs idx st = Ok s1 →
  Js.forEach (agentStep Date_now' runId' t' allPosts sel) xs idx st' = Ok s1' →
  ∀ h, Feed.postUris <$> s1'.1 !! h = Feed.postUris <$> s1.1 !! h.
Proof.
  intros Huris. revert idx st st'.
  induction xs as [|x xs IH]; intros idx st st' Hidx Hst Hrun Hrun'.
  - simpl in Hrun, Hrun'. by injection Hrun as <-; injection Hrun' as <-.
  - simpl in Hrun, Hrun'. unfold mbind, result_bind in Hrun, Hrun'.
    destruct (agentStep Date_now runId t allPosts sel st x idx) as [u|] eqn:Hu;
      [|discriminate].
    destruct (agentStep Date_now' runId' t' allPosts sel st' x idx) as [u'|] eqn:Hu';
      [|discriminate].
    apply (IH (idx + 1) u u'); [lia| |assumption..].
    apply agentStep_Ok_inv in Hu as (a & feed & likes & follows & -> & Hmk & _ & _ & ->).
    apply agentStep_Ok_inv in Hu'
      as (a' & feed' & likes' & follows' & [= <-] & Hmk' & _ & _ & ->).
    apply makeFeed_Ok_inv in Hmk as ->. apply makeFeed_Ok_inv in Hmk' as ->.
    intros h. simpl. destruct (decide (Agent.handle a = h)) as [<-|Hne].
    + rewrite !lookup_insert_eq. simpl. by rewrite Huris.
    + rewrite !lookup_insert_ne by assumption. apply Hst.
Qed.

(** X18. The feeds recur: [|agents| * |allPosts|] turns later every agent is
    shown the very URIs it is shown now, in the same order. *)
Theorem feeds_recur (Date_now Date_now' : Z) (runId : string) (turnNumber : Z)
    (agents : list Agent.t) (allPosts : list Post.t) (turn turn' : Turn.t)
    (h : string) :
  0 ≤ turnNumber →
  createTurnForRun Date_now runId turnNumber agents allPosts = Ok turn →
  createTurnForRun Date_now' runId
    (turnNumber + Z.of_nat (length agents) * Z.of_nat (length allPosts))
    agents allPosts = Ok turn' →
  feedUris h turn' = feedUris h turn.
Proof.
  intros Ht Hrun Hrun'.
  apply createTurnForRun_Ok_inv in Hrun as [_ Hrun].
  apply createTurnForRun_Ok_inv in Hrun' as [_ Hrun'].
  rewrite selectAgents_period in Hrun' by lia.
  unfold feedUris.
  pose proof (forEach_same_uris Date_now Date_now' runId runId turnNumber
                (turnNumber + Z.of_nat (length agents) * Z.of_nat (length allPosts))
                allPosts (selectAgents turnNumber agents)
                (selectAgents turnNumber agents) 0 (∅, ∅) (∅, ∅)
                (Turn.agentFeeds turn, Turn.agentActions turn)
                (Turn.agentFeeds turn', Turn.agentActions turn')) as Hsame.
  specialize (Hsame
    (fun i Hi => feedPostUris_period turnNumber (Z.of_nat (length agents))
                   (Z.of_nat (length (selectAgents turnNumber agents))) i allPosts
                   Ht ltac:(lia) ltac:(lia) Hi)
    ltac:(lia) (fun h => eq_refl) Hrun Hrun' h).
  simpl in Hsame.
  destruct (Turn.agentFeeds turn' !! h), (Turn.agentFeeds turn !! h);
    simpl in *; congruence.
Qed.

Lemma feeds_recur_witness :
  ∃ turn turn',
    createTurnForRun 0 "run_2025-01-15T10:30:00" 1 (slice0 3 DUMMY_AGENTS)
      DUMMY_POSTS = Ok turn
    ∧ createTurnForRun 60000 "run_2025-01-15T10:30:00" 31 (slice0 3 DUMMY_AGENTS)
        DUMMY_POSTS = Ok turn'
    ∧ feedUris "@bob.tech" turn
      = [ "at://did:plc:example4/post4"; "at://did:plc:example5/post5";
          "at://did:plc:example6/post6" ]
    ∧ feedUris "@bob.tech" turn' = feedUris "@bob.tech" turn.
Proof.
  assert (∃ turn turn',
            createTurnForRun 0 "run_2025-01-15T10:30:00" 1 (slice0 3 DUMMY_AGENTS)
              DUMMY_POSTS = Ok turn
            ∧ createTurnForRun 60000 "run_2025-01-15T10:30:00" 31
                (slice0 3 DUMMY_AGENTS) DUMMY_POSTS = Ok turn'
            ∧ feedUris "@bob.tech" turn
              = [ "at://did:plc:example4/post4"; "at://did:plc:example5/post5";
                  "at://did:plc:example6/post6" ])
    as (turn & turn' & Hturn & Hturn' & Huris).
  { eexists _, _. split; [vm_compute; reflexivity|].
    split; vm_compute; reflexivity. }
  exists turn, turn'. repeat split; try assumption.
  apply (feeds_recur 0 60000 "run_2025-01-15T10:30:00" 1 (slice0 3 DUMMY_AGENTS)
           DUMMY_POSTS turn turn' "@bob.tech"); [lia|exact Hturn|exact Hturn'].
Defined.
